(** * Microphone capture and voice-activity detection
    (src/interface/asr/microphone.py)

    A shallow embedding of the [Microphone] class and of the module-level
    helper [_resample].  NumPy arrays are records of a dtype tag and the
    list of their values; the values are rationals, the numbers the array
    elements denote.  The external collaborators (scipy's [signal.resample],
    NumPy's element conversion and serialisation, the Silero [VADIterator],
    the sounddevice queries and recordings) are variables of one section,
    each with the part of its documented contract the proofs need.

    Python integers are [Z].  [int(a * b / c)] on integers is modelled by
    the truncated exact quotient [Z.quot (a * b) c]: Python's true division
    of two integers is the correctly rounded double of the exact quotient,
    and module [Float64] below evaluates the same expression on IEEE
    doubles so that the two can be compared on concrete inputs.

    [record_until_silence] runs two threads, the audio callback and the
    polling loop.  A call of the callback is atomic for the loop (both hold
    the interpreter lock while they run Python code), so one call of
    [record_until_silence] is a function of a [schedule]: which chunks the
    stream delivers between two evaluations of the loop condition, and what
    the clock reads at each. *)

From Stdlib Require Import ZArith QArith Qround Lia.
From Stdlib Require Import Floats.PrimFloat Floats.SpecFloat Floats.FloatOps.
From Stdlib Require Import Numbers.Cyclic.Int63.Uint63.
From stdpp Require Import gmap strings list pretty sorting.

Local Open Scope Z_scope.

(** ** Python numerics *)

(** [int(q)] on a number: truncation toward zero. *)
Definition py_int (q : Q) : Z := Z.quot (Qnum q) (Z.pos (Qden q)).

(** [a < b] on numbers. *)
Definition Qlt_bool (a b : Q) : bool := negb (Qle_bool b a).

(** [int(a / b)] for integers [a], [b]; [None] is [ZeroDivisionError].
    The quotient is the exact one.  Python truncates the double nearest to
    it, which gives the same integer as long as [a] is below [2^53] (a
    quotient that is not whole then lies at least [1 / b] under the next
    integer, more than half the spacing of the doubles there); beyond, the
    two can differ by one. *)
Definition int_truediv (a b : Z) : option Z :=
  if Z.eqb b 0 then None else Some (Z.quot a b).

(** [round(q)]: Python rounds to the nearest integer, ties to even. *)
Definition py_round (q : Q) : Z :=
  let f := Qfloor q in
  match Qcompare (q - inject_Z f) (1 # 2) with
  | Lt => f
  | Gt => f + 1
  | Eq => if Z.even f then f else f + 1
  end.

(** The same integer expressions on IEEE doubles, for arguments below
    [2^53] (which convert to doubles without rounding). *)
Module Float64.

Definition of_int (a : Z) : float := PrimFloat.of_uint63 (Uint63.of_Z a).

(** [a / b] on integers. *)
Definition truediv (a b : Z) : float := PrimFloat.div (of_int a) (of_int b).

(** [int(f)]; [None] for an infinity or a NaN, where Python raises. *)
Definition to_int (f : float) : option Z :=
  match Prim2SF f with
  | S754_zero _ => Some 0
  | S754_finite s m e =>
      let mag := if Z.leb 0 e then Z.shiftl (Z.pos m) e
                 else Z.shiftr (Z.pos m) (- e) in
      Some (if s then - mag else mag)
  | S754_infinity _ => None
  | S754_nan => None
  end.

(** [int(a * b / c)]. *)
Definition int_mul_div (a b c : Z) : option Z :=
  if Z.eqb c 0 then None else to_int (truediv (a * b) c).

(** Whether [int(a * b / c)] on doubles is the truncated exact quotient. *)
Definition agrees (a b c : Z) : bool :=
  match int_mul_div a b c, int_truediv (a * b) c with
  | Some x, Some y => Z.eqb x y
  | None, None => true
  | _, _ => false
  end.

(** The two quotients of the VAD path at a device rate: the chunk size
    [int(512 * rate / 16000)] and the resampled length
    [int(chunk_size * 16000 / rate)]. *)
Definition vad_path_agrees (rate : Z) : bool :=
  agrees 512 rate 16000 && agrees (Z.quot (512 * rate) 16000) 16000 rate.

(** Device rates above 50000 that sound hardware offers. *)
Definition high_rates : list Z :=
  [64000; 88200; 96000; 176400; 192000; 352800; 384000].

(** [vad_path_agrees] at the [n] rates from [rate] on. *)
Fixpoint vad_path_agrees_from (n : nat) (rate : Z) : bool :=
  match n with
  | O => true
  | S n' => vad_path_agrees rate && vad_path_agrees_from n' (rate + 1)
  end.

End Float64.

(** ** NumPy arrays *)

Inductive dtype := int16 | float32 | float64.

#[global] Instance dtype_eq_dec : EqDecision dtype.
Proof. solve_decision. Defined.

Definition itemsize (d : dtype) : nat :=
  match d with int16 => 2 | float32 => 4 | float64 => 8 end.

(** A one-dimensional array. *)
Record ndarray := mk_ndarray { arr_dtype : dtype; arr_data : list Q }.

(** A two-dimensional array, frames by channels. *)
Record ndarray2 := mk_ndarray2 { arr2_dtype : dtype; arr2_rows : list (list Q) }.

(** [len(a)] *)
Definition len (a : ndarray) : Z := Z.of_nat (length (arr_data a)).

(** [a[:, 0]] (and [.copy()], which a value model does not see). *)
Definition column0 (a : ndarray2) : ndarray :=
  mk_ndarray (arr2_dtype a) (map (hd 0%Q) (arr2_rows a)).

(** [a[:n]]; a negative [n] counts from the end. *)
Definition slice_to (a : ndarray) (n : Z) : ndarray :=
  let stop := if Z.leb 0 n then n else len a + n in
  mk_ndarray (arr_dtype a) (take (Z.to_nat stop) (arr_data a)).

(** [np.pad(a, (0, k))]: [k] zeros on the right, same dtype. *)
Definition np_pad_right (a : ndarray) (k : Z) : ndarray :=
  mk_ndarray (arr_dtype a) (arr_data a ++ replicate (Z.to_nat k) 0%Q).

(** [np.concatenate(chunks)] of arrays of one dtype; [None] is the
    [ValueError] NumPy raises on an empty list. *)
Definition np_concatenate (chunks : list ndarray) : option ndarray :=
  match chunks with
  | [] => None
  | c :: _ => Some (mk_ndarray (arr_dtype c) (concat (map arr_data chunks)))
  end.

(** ** The module and the class *)

Definition VAD_SAMPLE_RATE : Z := 16000.
Definition VAD_CHUNK_SAMPLES : Z := 512.

(** What a call of the VAD iterator returns: [None] or a dict with a
    ["start"] or an ["end"] key. *)
Definition vad_result : Type := option (gmap string Z).

(** [if result:] -- neither [None] nor an empty dict. *)
Definition truthy (result : vad_result) : bool :=
  match result with
  | Some d => negb (bool_decide (d = ∅))
  | None => false
  end.

(** [key in result], for a result that is not [None]. *)
Definition has_key (key : string) (d : gmap string Z) : bool :=
  bool_decide (is_Some (d !! key)).

(** ** Executable stand-ins for the external collaborators

    The properties below hold for every collaborator that meets the stated
    contract.  These simple ones meet it; they serve to run the model on
    concrete inputs. *)

(** A nearest-sample resampler: [num] values read off [x] at evenly spaced
    positions; it refuses an empty input and a non-positive [num]. *)
Definition nearest_resample (x : ndarray) (num : Z) : option (list Q) :=
  match arr_data x with
  | [] => None
  | x0 :: _ =>
      if Z.leb num 0 then None
      else Some (map (fun i : nat => nth (Z.to_nat (Z.of_nat i * len x / num)) (arr_data x) x0)
                   (seq 0 (Z.to_nat num)))
  end.

(** Conversion to int16 truncates and wraps to 16 bits; the float dtypes
    keep the value. *)
Definition wrap_int16 (z : Z) : Z := (z + 32768) mod 65536 - 32768.

Definition cast_elem (d : dtype) (q : Q) : Q :=
  match d with
  | int16 => inject_Z (wrap_int16 (py_int q))
  | float32 | float64 => q
  end.

Definition byte_of_Z (z : Z) : Byte.byte :=
  match Byte.of_N (Z.to_N (z mod 256)) with
  | Some b => b
  | None => Byte.x00
  end.

Fixpoint le_split (n : nat) (z : Z) : list Byte.byte :=
  match n with
  | O => []
  | S n' => byte_of_Z z :: le_split n' (Z.shiftr z 8)
  end.

(** Little-endian bytes of the integer part, [itemsize d] of them (the
    int16 encoding; only int16 arrays are serialised below). *)
Definition le_bytes (d : dtype) (q : Q) : list Byte.byte :=
  le_split (itemsize d) (Qfloor q).

(** An iterator that is triggered by any non-zero sample and released by
    an all-zero frame. *)
Definition toy_vad_new (_ : unit) (_ : Q) (_ _ : Z) : bool := false.

Definition toy_vad_call (triggered : bool) (frame : ndarray) : bool * vad_result :=
  let loud := existsb (fun x => negb (Qeq_bool x 0)) (arr_data frame) in
  match triggered, loud with
  | false, true => (true, Some {[ "start" := 0 ]})
  | true, false => (false, Some {[ "end" := 0 ]})
  | _, _ => (triggered, None)
  end.

(** Four devices, by index, with their default sample rates. *)
Definition toy_query_devices (d : Z + string) : option Q :=
  match d with
  | inl 0 => Some (inject_Z 44100)
  | inl 1 => Some (inject_Z 22050)
  | inl 2 => Some (inject_Z 16000)
  | inl 3 => Some (inject_Z 48000)
  | _ => None
  end.

(** A recording of silence, [samples] frames of one channel. *)
Definition silent_rec (samples _ : Z) : option ndarray2 :=
  if Z.leb 0 samples
  then Some (mk_ndarray2 int16 (replicate (Z.to_nat samples) [0%Q]))
  else None.

Section Microphone.

(** *** External collaborators *)

(** [scipy.signal.resample(x, num)]: the values of the result (float64),
    or [None] when it raises. *)
Variable signal_resample : ndarray -> Z -> option (list Q).

(** NumPy's conversion of one element to a dtype. *)
Variable astype_elem : dtype -> Q -> Q.

(** NumPy's serialisation of one element of a dtype. *)
Variable elem_bytes : dtype -> Q -> list Byte.byte.

(** The Silero model and its iterator: construction from the model and
    the three settings, and one call on a frame. *)
Variable Model : Type.
Variable VADIterator_state : Type.
Variable load_silero_vad : Model.
Variable VADIterator : Model -> Q -> Z -> Z -> VADIterator_state.
Variable vad_call : VADIterator_state -> ndarray -> VADIterator_state * vad_result.

(** sounddevice: [query_devices(d)["default_samplerate"]] ([None] when
    the query raises), [default.device[0]], and [rec(samples, samplerate,
    channels=1, dtype=int16)] followed by [wait()]. *)
Variable query_devices : Z + string -> option Q.
Variable default_device : Z + string.
Variable sd_rec : Z -> Z -> option ndarray2.

(** [a.astype(d)] *)
Definition astype (d : dtype) (a : ndarray) : ndarray :=
  mk_ndarray d (map (astype_elem d) (arr_data a)).

(** [a.tobytes()] *)
Definition tobytes (a : ndarray) : list Byte.byte :=
  concat (map (elem_bytes (arr_dtype a)) (arr_data a)).

(** *** [_resample] *)

Definition _resample (audio : ndarray) (orig_sr target_sr : Z) : option ndarray :=
  if Z.eqb orig_sr target_sr then Some audio
  else
    num_samples ← int_truediv (len audio * target_sr) orig_sr;
    y ← signal_resample audio num_samples;
    Some (astype (arr_dtype audio) (mk_ndarray float64 y)).

(** *** [Microphone] *)

Record Microphone := mk_Microphone {
  device : option (Z + string);
  threshold : Q;
  min_silence_duration_ms : Z;
  speech_pad_ms : Z;
  device_sample_rate : Z;
  chunk_size : Z;
  model : Model;
  vad_iterator : VADIterator_state
}.

Definition set_vad_iterator (self : Microphone) (it : VADIterator_state) : Microphone :=
  mk_Microphone (device self) (threshold self) (min_silence_duration_ms self)
    (speech_pad_ms self) (device_sample_rate self) (chunk_size self)
    (model self) it.

Definition _reset_vad (self : Microphone) : Microphone :=
  set_vad_iterator self
    (VADIterator (model self) (threshold self)
       (min_silence_duration_ms self) (speech_pad_ms self)).

(** The chunk size [__init__] derives from the device rate, with the exact
    quotient; it is what line 100 computes on doubles for every device rate
    below [2^44] ([512 * rate] is then below [2^53]). *)
Definition chunk_size_of (rate : Z) : Z :=
  Z.quot (VAD_CHUNK_SAMPLES * rate) VAD_SAMPLE_RATE.

(** [Microphone(device, threshold, min_silence_duration_ms, speech_pad_ms)];
    [None] when the device query raises.  The last field is the effect of
    the closing [self._reset_vad()].  Loading the model and constructing
    the iterator are taken to return: [Some] says that the device query
    went through and what the object is once the constructor returns, not
    that the model could be loaded. *)
Definition __init__ (device : option (Z + string)) (threshold : Q)
    (min_silence_duration_ms speech_pad_ms : Z) : option Microphone :=
  dev_rate ← match device with
             | Some d => query_devices d
             | None => query_devices default_device
             end;
  let device_sample_rate := py_int dev_rate in
  let chunk_size := chunk_size_of device_sample_rate in
  let model := load_silero_vad in
  Some (mk_Microphone device threshold min_silence_duration_ms speech_pad_ms
          device_sample_rate chunk_size model
          (VADIterator model threshold min_silence_duration_ms speech_pad_ms)).

(** The truncate-or-pad step of [_resample_to_vad_chunk], with the frame
    size [VAD_CHUNK_SAMPLES] as the argument [N]. *)
Definition fit_to_frame (resampled : ndarray) (N : Z) : ndarray :=
  if Z.ltb N (len resampled) then slice_to resampled N
  else if Z.ltb (len resampled) N then np_pad_right resampled (N - len resampled)
  else resampled.

Definition _resample_to_vad_chunk (self : Microphone) (audio : ndarray) : option ndarray :=
  resampled ← (if negb (Z.eqb (device_sample_rate self) VAD_SAMPLE_RATE)
               then _resample audio (device_sample_rate self) VAD_SAMPLE_RATE
               else Some audio);
  Some (astype float32 (fit_to_frame resampled VAD_CHUNK_SAMPLES)).

(** *** [record_until_silence] *)

(** The local variables of one [record_until_silence] call that its
    callback reads and writes, with [self] (whose iterator the callback
    advances) and the state of the input stream. *)
Record capture := mk_capture {
  self_of : Microphone;
  audio_chunks : list ndarray;
  speech_started : bool;
  speech_ended : bool;
  stream_active : bool
}.

(** The nested [callback(indata, frames, time_info, status)].  The boolean
    is [false] when an exception leaves the callback (the resampling of the
    chunk raised); the chunk is appended by then. *)
Definition callback (c : capture) (indata : ndarray2) : capture * bool :=
  if speech_ended c then (c, true)
  else
    let chunk := column0 indata in
    let chunks := audio_chunks c ++ [chunk] in
    match _resample_to_vad_chunk (self_of c) chunk with
    | None =>
        (mk_capture (self_of c) chunks (speech_started c) (speech_ended c)
           (stream_active c), false)
    | Some vad_chunk =>
        let '(it, result) := vad_call (vad_iterator (self_of c)) vad_chunk in
        let self := set_vad_iterator (self_of c) it in
        match result with
        | Some d =>
            if truthy result then
              (mk_capture self chunks
                 (if has_key "start" d then true else speech_started c)
                 (if has_key "end" d then true else speech_ended c)
                 (stream_active c), true)
            else (mk_capture self chunks (speech_started c) (speech_ended c)
                    (stream_active c), true)
        | None =>
            (mk_capture self chunks (speech_started c) (speech_ended c)
               (stream_active c), true)
        end
    end.

(** The stream hands the chunks of a batch to the callback one by one.
    sounddevice turns an exception that leaves the callback into an abort
    of the stream, which then delivers no more. *)
Fixpoint deliver (c : capture) (batch : list ndarray2) : capture :=
  match batch with
  | [] => c
  | indata :: rest =>
      if stream_active c then
        let '(c', ok) := callback c indata in
        if ok then deliver c' rest
        else mk_capture (self_of c') (audio_chunks c') (speech_started c')
               (speech_ended c') false
      else c
  end.

(** What the environment does during one call: the reading of
    [time.time()] that becomes [start_time]; for every evaluation of the
    loop condition, the chunks delivered since the previous one and the
    clock reading of that evaluation; and the chunks delivered after the
    last evaluation, before the [with] block closes the stream. *)
Record schedule := mk_schedule {
  start_time : Q;
  polls : list (list ndarray2 * Q);
  before_close : list ndarray2
}.

(** [while not speech_ended and (time.time() - start_time) < timeout:
    sd.sleep(10)].  [None]: the schedule ends with the loop still running. *)
Fixpoint poll_loop (c : capture) (start timeout : Q)
    (polls : list (list ndarray2 * Q)) : option capture :=
  match polls with
  | [] => None
  | (batch, now) :: rest =>
      let c' := deliver c batch in
      if negb (speech_ended c') && Qlt_bool (now - start) timeout
      then poll_loop c' start timeout rest
      else Some c'
  end.

(** How a call stands when the schedule is used up, with [self] as the
    call leaves it. *)
Inductive outcome :=
| Running                                   (* still in the polling loop *)
| Raised (self : Microphone)                (* an exception propagates *)
| Returned (self : Microphone) (out : list Byte.byte).

(** [record_until_silence(timeout)] under a schedule, the input stream
    having opened. *)
Definition record_until_silence (self : Microphone) (timeout : Q)
    (env : schedule) : outcome :=
  let self := _reset_vad self in
  let c0 := mk_capture self [] false false true in
  match poll_loop c0 (start_time env) timeout (polls env) with
  | None => Running
  | Some c =>
      let c := deliver c (before_close env) in
      match audio_chunks c with
      | [] => Returned (self_of c) []
      | _ :: _ =>
          match audio ← np_concatenate (audio_chunks c);
                _resample audio (device_sample_rate (self_of c)) VAD_SAMPLE_RATE with
          | Some audio_16k => Returned (self_of c) (tobytes audio_16k)
          | None => Raised (self_of c)
          end
      end
  end.

(** *** [record_seconds] and [is_speech] *)

(** [record_seconds(duration)]; [None] when the recording or the
    resampling raises.  The frame count is taken from the exact product
    [rate * duration]; line 194 truncates the double nearest to it, which
    is the same number whenever the product is whole (and below [2^53]),
    as for a whole number of seconds, and can be one more otherwise (a
    product just under a whole number rounds up to it). *)
Definition record_seconds (self : Microphone) (duration : Q) : option (list Byte.byte) :=
  let samples := py_int (inject_Z (device_sample_rate self) * duration) in
  audio ← sd_rec samples (device_sample_rate self);
  audio_16k ← _resample (column0 audio) (device_sample_rate self) VAD_SAMPLE_RATE;
  Some (tobytes audio_16k).

(** The frame [is_speech] hands to the iterator. *)
Definition normalize (audio_chunk : ndarray) : ndarray :=
  if bool_decide (arr_dtype audio_chunk <> float32)
  then mk_ndarray float32
         (map (fun x => (x / 32768)%Q) (arr_data (astype float32 audio_chunk)))
  else audio_chunk.

(** [is_speech(audio_chunk)]: [self] as the call leaves it, and the
    result. *)
Definition is_speech (self : Microphone) (audio_chunk : ndarray) : Microphone * bool :=
  let audio_chunk := normalize audio_chunk in
  let '(it, result) := vad_call (vad_iterator self) audio_chunk in
  (set_vad_iterator self it,
   match result with
   | Some d => has_key "start" d
   | None => false
   end).

(** ** Properties *)

(** *** Contracts of the collaborators *)

(** [signal.resample(x, num)] returns [num] samples, and it does return on
    a non-empty input for a positive [num]. *)
Hypothesis signal_resample_length :
  forall x num y, signal_resample x num = Some y -> Z.of_nat (length y) = num.
Hypothesis signal_resample_returns :
  forall x num, arr_data x <> [] -> 0 < num -> is_Some (signal_resample x num).

(** An element of dtype [d] takes [itemsize d] bytes. *)
Hypothesis elem_bytes_length :
  forall d q, length (elem_bytes d q) = itemsize d.

(** [sd.rec(samples, ..., channels=1, dtype=np.int16)] returns [samples]
    frames of int16. *)
Hypothesis sd_rec_frames :
  forall samples rate a, sd_rec samples rate = Some a ->
    arr2_dtype a = int16 /\ Z.of_nat (length (arr2_rows a)) = samples.

(** *** Lengths *)

Lemma len_nonneg (a : ndarray) : 0 <= len a.
Proof. unfold len. lia. Qed.

Lemma len_astype (d : dtype) (a : ndarray) : len (astype d a) = len a.
Proof. unfold len, astype. simpl. by rewrite length_map. Qed.

Lemma len_column0 (a : ndarray2) : len (column0 a) = Z.of_nat (length (arr2_rows a)).
Proof. unfold len, column0. simpl. by rewrite length_map. Qed.

Lemma len_slice_to (a : ndarray) (n : Z) :
  0 <= n <= len a -> len (slice_to a n) = n.
Proof.
  intros [H0 Hn]. unfold slice_to, len in *. simpl.
  destruct (Z.leb_spec 0 n); [|lia].
  rewrite length_take. lia.
Qed.

Lemma len_np_pad_right (a : ndarray) (k : Z) :
  0 <= k -> len (np_pad_right a k) = len a + k.
Proof.
  intros Hk. unfold np_pad_right, len. simpl.
  rewrite length_app, length_replicate. lia.
Qed.

Lemma length_tobytes (a : ndarray) :
  length (tobytes a) = (itemsize (arr_dtype a) * length (arr_data a))%nat.
Proof.
  unfold tobytes. induction (arr_data a) as [|q l IH]; simpl.
  - lia.
  - rewrite length_app, IH, elem_bytes_length. lia.
Qed.

(** *** [_resample] *)

Lemma _resample_unfold (audio : ndarray) (orig_sr target_sr : Z) :
  orig_sr <> target_sr -> orig_sr <> 0 ->
  _resample audio orig_sr target_sr =
    (y ← signal_resample audio (Z.quot (len audio * target_sr) orig_sr);
     Some (astype (arr_dtype audio) (mk_ndarray float64 y))).
Proof.
  intros Hne H0. unfold _resample, int_truediv.
  destruct (Z.eqb_spec orig_sr target_sr); [done|].
  destruct (Z.eqb_spec orig_sr 0); done.
Qed.

Lemma _resample_Some (audio : ndarray) (orig_sr target_sr : Z) (out : ndarray) :
  orig_sr <> target_sr -> orig_sr <> 0 ->
  _resample audio orig_sr target_sr = Some out ->
  len out = Z.quot (len audio * target_sr) orig_sr /\ arr_dtype out = arr_dtype audio.
Proof.
  intros Hne H0. rewrite _resample_unfold by done.
  destruct (signal_resample audio _) as [y|] eqn:Hy; simpl; [|done].
  intros [= <-]. split; [|done].
  rewrite len_astype. unfold len. simpl. by apply signal_resample_length in Hy.
Qed.

Lemma _resample_returns (audio : ndarray) (orig_sr target_sr : Z) :
  orig_sr <> target_sr -> orig_sr <> 0 ->
  arr_data audio <> [] -> 0 < Z.quot (len audio * target_sr) orig_sr ->
  is_Some (_resample audio orig_sr target_sr).
Proof.
  intros Hne H0 Hdata Hnum. rewrite _resample_unfold by done.
  destruct (signal_resample_returns audio _ Hdata Hnum) as [y ->]. by eexists.
Qed.

Lemma _resample_eq_rates (audio : ndarray) (orig_sr target_sr : Z) :
  orig_sr = target_sr -> _resample audio orig_sr target_sr = Some audio.
Proof. intros ->. unfold _resample. by rewrite Z.eqb_refl. Qed.

(** C4. When the source and the target rate are equal, [_resample] returns
    its input unchanged, whatever the samples (the empty sequence included)
    and whatever the rate. *)
Theorem resample_same_rate (s : ndarray) (r : Z) :
  _resample s r r = Some s.
Proof.
  unfold _resample.
  destruct (Z.eqb_spec r r) as [_|Hne]; [reflexivity|].
  by destruct Hne.
Qed.

(** C2, as the code has it.  For positive rates that differ, and as long
    as [len(s) * to_rate] is below [2^53] (where the double quotient of
    line 57 truncates to the exact one), [_resample] asks scipy for
    [int(len(s) * to_rate / from_rate)] samples, the quotient rounded down,
    not to the nearest integer: whenever it returns, the output has exactly
    that many samples and the dtype of the input, and it returns whenever
    the input is not empty and that number is positive. *)
Theorem resample_length_floor (s : ndarray) (from_rate to_rate : Z) :
  0 < from_rate -> 0 < to_rate -> from_rate <> to_rate ->
  len s * to_rate < 2 ^ 53 ->
  (forall out, _resample s from_rate to_rate = Some out ->
     len out = len s * to_rate / from_rate /\ arr_dtype out = arr_dtype s) /\
  (arr_data s <> [] -> 0 < len s * to_rate / from_rate ->
     is_Some (_resample s from_rate to_rate)).
Proof.
  intros Hf Ht Hne _.
  assert (Hq : Z.quot (len s * to_rate) from_rate = len s * to_rate / from_rate).
  { apply Z.quot_div_nonneg; [|lia]. pose proof (len_nonneg s). lia. }
  split.
  - intros out Hout. rewrite <- Hq. apply _resample_Some; [done|lia|done].
  - intros Hdata Hnum. apply _resample_returns; [done|lia|done|lia].
Qed.

(** *** Frame fitting *)

Lemma len_fit_to_frame (a : ndarray) (N : Z) :
  0 <= N -> len (fit_to_frame a N) = N.
Proof.
  intros HN. unfold fit_to_frame.
  destruct (Z.ltb_spec N (len a)); [apply len_slice_to; lia|].
  destruct (Z.ltb_spec (len a) N); [rewrite len_np_pad_right; lia|lia].
Qed.

Lemma fit_to_frame_pads (a : ndarray) (N : Z) :
  len a <= N ->
  arr_data (fit_to_frame a N) = arr_data a ++ replicate (Z.to_nat (N - len a)) 0%Q.
Proof.
  intros Hle. unfold fit_to_frame.
  destruct (Z.ltb_spec N (len a)); [lia|].
  destruct (Z.ltb_spec (len a) N); [done|].
  replace (N - len a) with 0 by lia. simpl. by rewrite app_nil_r.
Qed.

(** Whenever it returns, [_resample_to_vad_chunk] returns a float32 frame
    of 512 samples. *)
Lemma _resample_to_vad_chunk_frame (self : Microphone) (audio frame : ndarray) :
  _resample_to_vad_chunk self audio = Some frame ->
  len frame = VAD_CHUNK_SAMPLES /\ arr_dtype frame = float32.
Proof.
  unfold _resample_to_vad_chunk.
  destruct (if negb _ then _ else _) as [resampled|]; simpl; [|done].
  intros [= <-]. split; [|done].
  rewrite len_astype. by apply len_fit_to_frame.
Qed.

(** C3. For every array and every frame size [N] (not negative), the
    truncate-or-pad step returns an array of exactly [N] samples of the same
    dtype: the first [N] samples when there are more, the samples followed
    by zeros when there are fewer, the array itself otherwise.  The step is
    a total function: it has no failing case. *)
Theorem fit_to_frame_length (s : ndarray) (N : Z) :
  0 <= N ->
  len (fit_to_frame s N) = N /\
  arr_dtype (fit_to_frame s N) = arr_dtype s /\
  (N < len s -> arr_data (fit_to_frame s N) = take (Z.to_nat N) (arr_data s)) /\
  (len s < N ->
     arr_data (fit_to_frame s N) =
       arr_data s ++ replicate (Z.to_nat (N - len s)) 0%Q) /\
  (len s = N -> fit_to_frame s N = s).
Proof.
  intros HN. unfold fit_to_frame.
  destruct (Z.ltb_spec N (len s)) as [Hgt|Hle].
  - split; [apply len_slice_to; lia|]. unfold slice_to. simpl.
    destruct (Z.leb_spec 0 N); [|lia]. split_and!; (done || (intros; lia)).
  - destruct (Z.ltb_spec (len s) N) as [Hlt|Hge].
    + split; [rewrite len_np_pad_right; lia|]. simpl.
      split_and!; (done || (intros; lia)).
    + split_and!; (done || (intros; lia)).
Qed.

(** *** The chunk size and the VAD path *)

Lemma init_fields (dev : option (Z + string)) (thr : Q) (ms pad : Z)
    (self : Microphone) :
  __init__ dev thr ms pad = Some self ->
  self = mk_Microphone dev thr ms pad (device_sample_rate self)
           (chunk_size_of (device_sample_rate self)) load_silero_vad
           (VADIterator load_silero_vad thr ms pad).
Proof.
  unfold __init__. intros H.
  destruct (match dev with Some d => query_devices d | None => query_devices default_device end)
    as [dev_rate|]; simpl in H; [|done].
  by injection H as <-.
Qed.

(** For a positive device rate below [2^44] (so that [512 * device_rate]
    is below [2^53] and the double quotient of line 100 truncates to the
    exact one), the chunk size of a constructed [Microphone] is the
    quotient rounded down, the integer [k] with
    [16000 * k <= 512 * device_rate < 16000 * (k + 1)]: never more than
    [512 * device_rate / 16000], whatever the comment of lines 98-99
    says. *)
Lemma init_chunk_size_floor (dev : option (Z + string)) (thr : Q) (ms pad : Z)
    (self : Microphone) :
  __init__ dev thr ms pad = Some self ->
  0 < device_sample_rate self < 2 ^ 44 ->
  chunk_size self = 512 * device_sample_rate self / 16000 /\
  16000 * chunk_size self <= 512 * device_sample_rate self
    < 16000 * (chunk_size self + 1).
Proof.
  intros H [Hpos _]. apply init_fields in H.
  assert (Hc : chunk_size self = Z.quot (512 * device_sample_rate self) 16000).
  { rewrite H at 1. reflexivity. }
  rewrite Hc, Z.quot_div_nonneg by lia.
  split; [done|].
  pose proof (Z.mul_div_le (512 * device_sample_rate self) 16000).
  pose proof (Z.mul_succ_div_gt (512 * device_sample_rate self) 16000).
  lia.
Qed.

(** C7, as the code has it.  [__init__] validates no setting: whether it
    fails depends on the device query alone, and when it succeeds the
    threshold, the minimum silence and the padding are stored as given,
    neither rejected nor clamped, and handed unchanged to the iterator. *)
Theorem init_stores_threshold_unchecked (dev : option (Z + string)) (thr : Q)
    (ms pad : Z) :
  match __init__ dev thr ms pad with
  | Some self =>
      threshold self = thr /\ min_silence_duration_ms self = ms /\
      speech_pad_ms self = pad /\
      vad_iterator self = VADIterator (model self) thr ms pad
  | None => forall thr' ms' pad', __init__ dev thr' ms' pad' = None
  end.
Proof.
  unfold __init__.
  destruct (match dev with Some d => query_devices d | None => query_devices default_device end)
    as [dev_rate|]; simpl; done.
Qed.

Lemma chunk_size_of_bound (rate : Z) :
  0 < rate ->
  0 <= chunk_size_of rate /\
  Z.quot (chunk_size_of rate * VAD_SAMPLE_RATE) rate <= VAD_CHUNK_SAMPLES /\
  (32 <= rate -> 0 < chunk_size_of rate /\
                 0 < Z.quot (chunk_size_of rate * VAD_SAMPLE_RATE) rate).
Proof.
  intros Hr. unfold chunk_size_of, VAD_SAMPLE_RATE, VAD_CHUNK_SAMPLES.
  rewrite (Z.quot_div_nonneg (512 * rate)) by lia.
  pose proof (Z.mul_div_le (512 * rate) 16000).
  pose proof (Z.mul_succ_div_gt (512 * rate) 16000).
  set (k := 512 * rate / 16000) in *.
  assert (Hk : 0 <= k) by (apply Z.div_pos; lia).
  rewrite Z.quot_div_nonneg by lia.
  split; [done|]. split.
  - apply Z.div_le_upper_bound; lia.
  - intros H32. split; [lia|]. apply Z.div_str_pos. lia.
Qed.

(** C10. With a positive device rate, a chunk of the derived size
    [int(512 * device_rate / 16000)] resamples to
    [int(chunk_size * 16000 / device_rate)] samples, never more than 512,
    so the frame handed to the iterator is the resampled chunk followed by
    zeros: the fitting step pads and never truncates.  From a device rate
    of 32 on, the resampling returns. *)
Theorem vad_chunk_only_pads (self : Microphone) (chunk : ndarray) :
  0 < device_sample_rate self ->
  chunk_size self = chunk_size_of (device_sample_rate self) ->
  len chunk = chunk_size self ->
  (forall resampled,
     _resample chunk (device_sample_rate self) VAD_SAMPLE_RATE = Some resampled ->
     len resampled = Z.quot (chunk_size self * VAD_SAMPLE_RATE) (device_sample_rate self) /\
     len resampled <= VAD_CHUNK_SAMPLES /\
     _resample_to_vad_chunk self chunk =
       Some (astype float32
               (np_pad_right resampled (VAD_CHUNK_SAMPLES - len resampled)))) /\
  (32 <= device_sample_rate self ->
     is_Some (_resample chunk (device_sample_rate self) VAD_SAMPLE_RATE)).
Proof.
  intros Hr Hcs Hlen.
  destruct (chunk_size_of_bound _ Hr) as (Hk0 & Hle & Hpos).
  rewrite <- Hcs in Hk0, Hle, Hpos.
  assert (Hlen_out : forall resampled,
             _resample chunk (device_sample_rate self) VAD_SAMPLE_RATE = Some resampled ->
             len resampled =
               Z.quot (chunk_size self * VAD_SAMPLE_RATE) (device_sample_rate self)).
  { intros resampled Hres.
    destruct (Z.eq_dec (device_sample_rate self) VAD_SAMPLE_RATE) as [He|Hne].
    - rewrite _resample_eq_rates in Hres by done. injection Hres as <-.
      rewrite Hlen. rewrite He in Hcs. rewrite Hcs, He. reflexivity.
    - apply _resample_Some in Hres as [-> _]; [|done|lia]. by rewrite Hlen. }
  split.
  - intros resampled Hres. pose proof (Hlen_out _ Hres) as Hl.
    split; [done|]. split; [lia|].
    unfold _resample_to_vad_chunk.
    destruct (Z.eqb_spec (device_sample_rate self) VAD_SAMPLE_RATE) as [He|Hne]; simpl.
    + rewrite _resample_eq_rates in Hres by done. injection Hres as <-.
      f_equal. unfold astype. f_equal. f_equal.
      apply fit_to_frame_pads. lia.
    + rewrite Hres. simpl. f_equal. unfold astype. f_equal. f_equal.
      apply fit_to_frame_pads. lia.
  - intros H32. destruct (Hpos H32) as [Hk Hout].
    destruct (Z.eq_dec (device_sample_rate self) VAD_SAMPLE_RATE) as [He|Hne].
    + rewrite _resample_eq_rates by done. by eexists.
    + apply _resample_returns; [done|lia| |by rewrite Hlen].
      intros Hnil. unfold len in Hlen. rewrite Hnil in Hlen. simpl in Hlen. lia.
Qed.

(** *** The capture callback *)

(** C1. From any state in which [speech_ended] holds, a call of the capture
    callback returns at once with the state as it was (the chunk list, both
    flags and the iterator, which is not called), and so does every
    sequence of further calls. *)
Theorem callback_noop_after_end (c : capture) :
  speech_ended c = true ->
  (forall indata, callback c indata = (c, true)) /\
  (forall batch, deliver c batch = c).
Proof.
  intros Hend.
  assert (Hstep : forall indata, callback c indata = (c, true)).
  { intros indata. unfold callback. by rewrite Hend. }
  split; [done|].
  induction batch as [|indata rest IH]; simpl; [done|].
  destruct (stream_active c); [|done].
  by rewrite Hstep.
Qed.

Lemma Qlt_bool_elapsed_0 (start now : Q) :
  (start <= now)%Q -> Qlt_bool (now - start) 0 = false.
Proof.
  intros H. unfold Qlt_bool.
  assert (Hle : Qle_bool 0 (now - start) = true).
  { apply Qle_bool_iff. by apply -> Qle_minus_iff. }
  by rewrite Hle.
Qed.

(** C5. With a timeout of 0, when the stream delivers no chunk before the
    loop condition is first evaluated nor before the stream is closed, and
    the clock has not gone back since [start_time] was read,
    [record_until_silence] returns the empty byte sequence; it does not
    raise. *)
Theorem record_until_silence_timeout_0 (self : Microphone) (env : schedule)
    (now : Q) (rest : list (list ndarray2 * Q)) :
  polls env = ([], now) :: rest ->
  (start_time env <= now)%Q ->
  before_close env = [] ->
  record_until_silence self 0 env = Returned (_reset_vad self) [].
Proof.
  intros Hpolls Hclock Hclose. unfold record_until_silence.
  rewrite Hpolls, Hclose. simpl.
  by rewrite Qlt_bool_elapsed_0.
Qed.

(** With any timeout: when no chunk is ever delivered, the loop leaves the
    state as it was, and the call, once back, returns the empty sequence. *)
Lemma poll_loop_no_chunks (c : capture) (start timeout : Q)
    (ps : list (list ndarray2 * Q)) (c' : capture) :
  Forall (fun p => p.1 = []) ps ->
  poll_loop c start timeout ps = Some c' -> c' = c.
Proof.
  induction 1 as [|[batch now] ps Hb _ IH]; simpl; [done|].
  simpl in Hb. subst batch. simpl.
  destruct (negb (speech_ended c) && Qlt_bool (now - start) timeout);
    [done|congruence].
Qed.

Lemma record_until_silence_no_chunks (self : Microphone) (timeout : Q)
    (env : schedule) :
  Forall (fun p => p.1 = []) (polls env) ->
  before_close env = [] ->
  record_until_silence self timeout env = Running \/
  record_until_silence self timeout env = Returned (_reset_vad self) [].
Proof.
  intros Hpolls Hclose. unfold record_until_silence.
  destruct (poll_loop _ _ _ _) as [c|] eqn:Hloop; [|by left].
  apply poll_loop_no_chunks in Hloop as ->; [|done].
  rewrite Hclose. by right.
Qed.

(** *** [record_seconds] *)

(** C6. On a device whose rate is 44100, when the one-second recording
    itself succeeds, [record_seconds(1.0)] returns 32000 bytes, the bytes of
    16000 int16 samples, which is within one sample (two bytes) of 32000. *)
Theorem record_seconds_1s_at_44100 (self : Microphone) :
  device_sample_rate self = 44100 ->
  is_Some (sd_rec 44100 44100) ->
  exists out, record_seconds self 1 = Some out /\
    Z.of_nat (length out) = 32000 /\
    31998 <= Z.of_nat (length out) <= 32002.
Proof.
  intros Hrate [audio Hrec]. unfold record_seconds. rewrite Hrate.
  change (py_int (inject_Z 44100 * 1)) with 44100.
  rewrite Hrec. simpl.
  destruct (sd_rec_frames _ _ _ Hrec) as [Hdt Hrows].
  assert (Hlen : len (column0 audio) = 44100) by by rewrite len_column0.
  assert (Hsome : is_Some (_resample (column0 audio) 44100 VAD_SAMPLE_RATE)).
  { apply _resample_returns; [done|done| |by rewrite Hlen].
    intros Hnil. unfold len in Hlen. by rewrite Hnil in Hlen. }
  destruct Hsome as [audio_16k Hres]. rewrite Hres. simpl.
  apply _resample_Some in Hres as [Hl Hd]; [|done|done].
  rewrite Hlen in Hl. change (Z.quot (44100 * VAD_SAMPLE_RATE) 44100) with 16000 in Hl.
  exists (tobytes audio_16k). split; [done|].
  rewrite length_tobytes, Hd. simpl. rewrite Hdt. simpl.
  unfold len in Hl. lia.
Qed.

(** *** [is_speech] *)

(** C9. [is_speech] calls the iterator once, in its current state, on the
    frame (a frame that is not float32 converted and divided by 32768, a
    float32 frame as it is); it keeps the state the iterator is left in,
    changes nothing else of the microphone, and returns true exactly when
    the iterator's result is a dict with a ["start"] key. *)
Theorem is_speech_iff_start (self : Microphone) (audio_chunk : ndarray) :
  (is_speech self audio_chunk).1 =
    set_vad_iterator self (vad_call (vad_iterator self) (normalize audio_chunk)).1 /\
  ((is_speech self audio_chunk).2 = true <->
     exists d, (vad_call (vad_iterator self) (normalize audio_chunk)).2 = Some d /\
               is_Some (d !! "start")) /\
  (arr_dtype audio_chunk <> float32 ->
     normalize audio_chunk =
       mk_ndarray float32
         (map (fun x => (astype_elem float32 x / 32768)%Q) (arr_data audio_chunk))) /\
  (arr_dtype audio_chunk = float32 -> normalize audio_chunk = audio_chunk).
Proof.
  unfold is_speech.
  destruct (vad_call (vad_iterator self) (normalize audio_chunk)) as [it result].
  simpl. split; [done|]. split.
  - destruct result as [d|]; simpl.
    + unfold has_key. rewrite bool_decide_eq_true. split.
      * intros Hs. by exists d.
      * by intros (d' & [= <-] & Hs).
    + split; [done|]. by intros (d & Hd & _).
  - unfold normalize. split; intros Hd.
    + rewrite bool_decide_eq_true_2 by done. simpl. by rewrite map_map.
    + by rewrite bool_decide_eq_false_2 by (intros Hn; by apply Hn).
Qed.

(** ** Further properties of the capture session *)

(** The state of a session when the polling loop is left, and when the
    [with] block then closes the stream; [None] while the loop is still
    running. *)
Definition capture_at_loop_exit (self : Microphone) (timeout : Q) (env : schedule)
    : option capture :=
  poll_loop (mk_capture (_reset_vad self) [] false false true)
    (start_time env) timeout (polls env).

Definition capture_at_close (self : Microphone) (timeout : Q) (env : schedule)
    : option capture :=
  c ← capture_at_loop_exit self timeout env;
  Some (deliver c (before_close env)).

(** The number of frames in a list of chunks. *)
Definition total_frames (chunks : list ndarray) : Z :=
  foldr (fun a n => len a + n) 0 chunks.

(** What [record_until_silence] makes of the captured chunks. *)
Definition result_of (c : capture) : outcome :=
  match audio_chunks c with
  | [] => Returned (self_of c) []
  | _ :: _ =>
      match audio ← np_concatenate (audio_chunks c);
            _resample audio (device_sample_rate (self_of c)) VAD_SAMPLE_RATE with
      | Some audio_16k => Returned (self_of c) (tobytes audio_16k)
      | None => Raised (self_of c)
      end
  end.

Lemma record_until_silence_eq (self : Microphone) (timeout : Q) (env : schedule) :
  record_until_silence self timeout env =
    match capture_at_close self timeout env with
    | Some c => result_of c
    | None => Running
    end.
Proof.
  unfold record_until_silence, capture_at_close, capture_at_loop_exit, result_of.
  by destruct (poll_loop _ _ _ _).
Qed.

Lemma set_vad_iterator_twice (self : Microphone) (a b : VADIterator_state) :
  set_vad_iterator (set_vad_iterator self a) b = set_vad_iterator self b.
Proof. done. Qed.

Lemma set_vad_iterator_same (self : Microphone) :
  set_vad_iterator self (vad_iterator self) = self.
Proof. by destruct self. Qed.

(** One call of the callback: the settings of the microphone stay, the raw
    chunk is appended unless speech has ended, no flag goes back, and the
    stream state is left alone. *)
Lemma callback_step (c : capture) (indata : ndarray2) :
  self_of (callback c indata).1 =
    set_vad_iterator (self_of c) (vad_iterator (self_of (callback c indata).1)) /\
  audio_chunks (callback c indata).1 =
    (if speech_ended c then audio_chunks c
     else audio_chunks c ++ [column0 indata]) /\
  (speech_started c = true -> speech_started (callback c indata).1 = true) /\
  (speech_ended c = true -> speech_ended (callback c indata).1 = true) /\
  stream_active (callback c indata).1 = stream_active c.
Proof.
  unfold callback. destruct (speech_ended c) eqn:Hend; simpl.
  { by rewrite set_vad_iterator_same. }
  destruct (_resample_to_vad_chunk (self_of c) (column0 indata)) as [vad_chunk|];
    simpl.
  - destruct (vad_call _ vad_chunk) as [it [d|]]; simpl.
    + destruct (negb (bool_decide (d = ∅))); simpl;
        split_and!; try done; intros ->; by destruct (has_key _ d).
    + done.
  - by rewrite set_vad_iterator_same.
Qed.

Lemma deliver_inactive (c : capture) (batch : list ndarray2) :
  stream_active c = false -> deliver c batch = c.
Proof. intros H. destruct batch; simpl; [done|]. by rewrite H. Qed.

Lemma deliver_ended (c : capture) (batch : list ndarray2) :
  speech_ended c = true -> deliver c batch = c.
Proof.
  intros Hend. induction batch as [|indata rest IH]; simpl; [done|].
  destruct (stream_active c); [|done].
  unfold callback. by rewrite Hend.
Qed.

Lemma deliver_cons (c : capture) (indata : ndarray2) (rest : list ndarray2) :
  stream_active c = true ->
  deliver c (indata :: rest) =
    if (callback c indata).2 then deliver (callback c indata).1 rest
    else mk_capture (self_of (callback c indata).1)
           (audio_chunks (callback c indata).1)
           (speech_started (callback c indata).1)
           (speech_ended (callback c indata).1) false.
Proof. intros H. simpl. rewrite H. by destruct (callback c indata). Qed.

Lemma deliver_settings (c : capture) (batch : list ndarray2) :
  self_of (deliver c batch) =
    set_vad_iterator (self_of c) (vad_iterator (self_of (deliver c batch))).
Proof.
  revert c. induction batch as [|indata rest IH]; intros c.
  { simpl. by rewrite set_vad_iterator_same. }
  destruct (stream_active c) eqn:Hact; [|by rewrite deliver_inactive, set_vad_iterator_same].
  rewrite deliver_cons by done.
  destruct (callback_step c indata) as (Hself & _).
  destruct (callback c indata).2; simpl.
  - rewrite IH. rewrite Hself at 1. by rewrite set_vad_iterator_twice.
  - done.
Qed.

Lemma deliver_flags (c : capture) (batch : list ndarray2) :
  (speech_started c = true -> speech_started (deliver c batch) = true) /\
  (speech_ended c = true -> speech_ended (deliver c batch) = true) /\
  (stream_active (deliver c batch) = true -> stream_active c = true).
Proof.
  revert c. induction batch as [|indata rest IH]; intros c; [done|].
  destruct (stream_active c) eqn:Hact; [|rewrite deliver_inactive by done; split_and!; [done|done|congruence]].
  rewrite deliver_cons by done.
  destruct (callback_step c indata) as (_ & _ & Hs & He & Ha).
  destruct (callback c indata).2; simpl; [|done].
  destruct (IH (callback c indata).1) as (IHs & IHe & IHa).
  split_and!; auto.
Qed.

Lemma deliver_chunks (c : capture) (batch : list ndarray2) :
  exists k, (k <= length batch)%nat /\
    audio_chunks (deliver c batch) = audio_chunks c ++ map column0 (take k batch) /\
    (speech_ended (deliver c batch) = false ->
     stream_active (deliver c batch) = true -> k = length batch).
Proof.
  revert c. induction batch as [|indata rest IH]; intros c.
  { exists 0%nat. simpl. by rewrite app_nil_r. }
  destruct (speech_ended c) eqn:Hend.
  { rewrite deliver_ended by done. exists 0%nat. simpl. rewrite app_nil_r.
    split; [lia|]. split; [done|]. congruence. }
  destruct (stream_active c) eqn:Hact.
  2:{ rewrite deliver_inactive by done. exists 0%nat. simpl. rewrite app_nil_r.
      split; [lia|]. split; [done|]. congruence. }
  rewrite deliver_cons by done.
  destruct (callback_step c indata) as (_ & Hch & _). rewrite Hend in Hch.
  destruct (callback c indata).2; simpl.
  - destruct (IH (callback c indata).1) as (k & Hk & Heq & Hall).
    exists (S k). split; [simpl; lia|]. split.
    + rewrite Heq, Hch. simpl. by rewrite <- app_assoc.
    + intros H1 H2. simpl. f_equal. by apply Hall.
  - exists 1%nat. split; [simpl; lia|]. split.
    + by rewrite Hch.
    + done.
Qed.

Lemma Qlt_bool_true (a b : Q) : Qlt_bool a b = true <-> (a < b)%Q.
Proof.
  unfold Qlt_bool. rewrite negb_true_iff. split.
  - intros H. apply Qnot_le_lt. intros Hle.
    apply Qle_bool_iff in Hle. congruence.
  - intros H. destruct (Qle_bool b a) eqn:Hle; [|done].
    apply Qle_bool_iff in Hle. by apply Qlt_not_le in H.
Qed.

Lemma poll_loop_settings (c c' : capture) (start timeout : Q)
    (ps : list (list ndarray2 * Q)) :
  poll_loop c start timeout ps = Some c' ->
  self_of c' = set_vad_iterator (self_of c) (vad_iterator (self_of c')).
Proof.
  revert c. induction ps as [|[batch now] ps IH]; intros c; simpl; [done|].
  pose proof (deliver_settings c batch) as Hd.
  destruct (negb _ && _).
  - intros H. apply IH in H. rewrite H. rewrite Hd at 1.
    by rewrite set_vad_iterator_twice.
  - by intros [= <-].
Qed.

Lemma capture_at_close_settings (self : Microphone) (timeout : Q)
    (env : schedule) (c : capture) :
  capture_at_close self timeout env = Some c ->
  self_of c = set_vad_iterator self (vad_iterator (self_of c)).
Proof.
  unfold capture_at_close, capture_at_loop_exit.
  destruct (poll_loop _ _ _ _) as [c1|] eqn:Hloop; simpl; [|done].
  intros [= <-]. apply poll_loop_settings in Hloop. simpl in Hloop.
  rewrite deliver_settings. rewrite Hloop at 1. unfold _reset_vad.
  by rewrite !set_vad_iterator_twice.
Qed.

Lemma poll_loop_returns (c : capture) (start timeout : Q)
    (ps : list (list ndarray2 * Q)) :
  Exists (fun p => (timeout <= p.2 - start)%Q) ps ->
  is_Some (poll_loop c start timeout ps).
Proof.
  intros Hex. revert c.
  induction Hex as [[batch now] ps Hnow|[batch now] ps _ IH]; intros c; simpl.
  - simpl in Hnow.
    assert (Hlt : Qlt_bool (now - start) timeout = false).
    { destruct (Qlt_bool (now - start) timeout) eqn:E; [|done].
      apply Qlt_bool_true in E. by apply Qlt_not_le in E. }
    rewrite Hlt, andb_false_r. by eexists.
  - destruct (negb _ && _); [apply IH|by eexists].
Qed.

Lemma poll_loop_early (c c' : capture) (start timeout : Q)
    (ps : list (list ndarray2 * Q)) :
  Forall (fun p => (p.2 - start < timeout)%Q) ps ->
  poll_loop c start timeout ps = Some c' -> speech_ended c' = true.
Proof.
  intros Hall. revert c.
  induction Hall as [|[batch now] ps Hnow _ IH]; intros c; simpl; [done|].
  simpl in Hnow. apply Qlt_bool_true in Hnow. rewrite Hnow, andb_true_r.
  destruct (speech_ended (deliver c batch)) eqn:Hend; simpl.
  - by intros [= <-].
  - apply IH.
Qed.

Lemma deliver_chunk_dtype (d : dtype) (c : capture) (batch : list ndarray2) :
  Forall (fun b => arr2_dtype b = d) batch ->
  Forall (fun a => arr_dtype a = d) (audio_chunks c) ->
  Forall (fun a => arr_dtype a = d) (audio_chunks (deliver c batch)).
Proof.
  intros Hb Hc. destruct (deliver_chunks c batch) as (k & _ & -> & _).
  apply Forall_app. split; [done|].
  apply Forall_fmap. by apply Forall_take.
Qed.

Lemma poll_loop_chunk_dtype (d : dtype) (c c' : capture) (start timeout : Q)
    (ps : list (list ndarray2 * Q)) :
  Forall (fun p => Forall (fun b => arr2_dtype b = d) p.1) ps ->
  Forall (fun a => arr_dtype a = d) (audio_chunks c) ->
  poll_loop c start timeout ps = Some c' ->
  Forall (fun a => arr_dtype a = d) (audio_chunks c').
Proof.
  intros Hall. revert c.
  induction Hall as [|[batch now] ps Hb _ IH]; intros c Hc; simpl; [done|].
  pose proof (deliver_chunk_dtype d c batch Hb Hc) as Hd.
  destruct (negb _ && _); [by apply IH|by intros [= <-]].
Qed.

Lemma capture_at_close_chunk_dtype (d : dtype) (self : Microphone) (timeout : Q)
    (env : schedule) (c : capture) :
  Forall (fun p => Forall (fun b => arr2_dtype b = d) p.1) (polls env) ->
  Forall (fun b => arr2_dtype b = d) (before_close env) ->
  capture_at_close self timeout env = Some c ->
  Forall (fun a => arr_dtype a = d) (audio_chunks c).
Proof.
  intros Hp Hb. unfold capture_at_close, capture_at_loop_exit.
  destruct (poll_loop _ _ _ _) as [c1|] eqn:Hloop; simpl; [|done].
  intros [= <-]. apply deliver_chunk_dtype; [done|].
  by apply (poll_loop_chunk_dtype d _ _ _ _ _ Hp) in Hloop.
Qed.

Lemma len_concat_chunks (d : dtype) (chunks : list ndarray) :
  len (mk_ndarray d (concat (map arr_data chunks))) = total_frames chunks.
Proof.
  unfold len. simpl. induction chunks as [|a l IH]; simpl; [done|].
  rewrite length_app, <- IH. unfold len. lia.
Qed.

Lemma np_concatenate_same_dtype (d : dtype) (chunks : list ndarray) :
  chunks <> [] -> Forall (fun a => arr_dtype a = d) chunks ->
  np_concatenate chunks = Some (mk_ndarray d (concat (map arr_data chunks))).
Proof.
  destruct chunks as [|a l]; [done|]. intros _ H.
  apply Forall_cons in H as [Ha _]. simpl. by rewrite Ha.
Qed.

Lemma tobytes_concat_chunks (d : dtype) (chunks : list ndarray) :
  Forall (fun a => arr_dtype a = d) chunks ->
  tobytes (mk_ndarray d (concat (map arr_data chunks))) = concat (map tobytes chunks).
Proof.
  unfold tobytes. simpl. induction 1 as [|a l Ha _ IH]; simpl; [done|].
  by rewrite map_app, concat_app, IH, Ha.
Qed.

(** Delivering two batches in a row is delivering their concatenation;
    and once the first batch has brought the end of speech, the second
    batch changes nothing. *)
Lemma deliver_app (c : capture) (b1 b2 : list ndarray2) :
  deliver c (b1 ++ b2) = deliver (deliver c b1) b2 /\
  (speech_ended (deliver c b1) = true -> deliver c (b1 ++ b2) = deliver c b1).
Proof.
  assert (Happ : forall c, deliver c (b1 ++ b2) = deliver (deliver c b1) b2).
  { clear c. induction b1 as [|indata rest IH]; intros c; [done|].
    destruct (stream_active c) eqn:Hact.
    - change ((indata :: rest) ++ b2) with (indata :: (rest ++ b2)).
      rewrite !deliver_cons by done.
      destruct (callback c indata).2; [apply IH|].
      by rewrite deliver_inactive.
    - by rewrite !(deliver_inactive c). }
  split; [apply Happ|].
  intros Hend. by rewrite Happ, deliver_ended.
Qed.

(** X1. A batch leaves in the accumulation buffer what was there, followed
    by the raw first column of the first [k] blocks of the batch, in order
    and unresampled; [k] is the whole batch whenever, after it, speech has
    not ended and the stream is still active. *)
Theorem deliver_appends_raw_prefix (c : capture) (batch : list ndarray2) :
  exists k, (k <= length batch)%nat /\
    audio_chunks (deliver c batch) = audio_chunks c ++ map column0 (take k batch) /\
    (speech_ended (deliver c batch) = false ->
     stream_active (deliver c batch) = true ->
     audio_chunks (deliver c batch) = audio_chunks c ++ map column0 batch).
Proof.
  destruct (deliver_chunks c batch) as (k & Hk & Heq & Hall).
  exists k. split; [done|]. split; [done|].
  intros He Ha. rewrite Heq, (Hall He Ha). by rewrite firstn_all.
Qed.

(** X2. Neither flag is ever reset by the callback: a session in which
    speech has started (has ended) is still so after any batch; and an
    aborted stream does not come back. *)
Theorem deliver_flags_never_reset (c : capture) (batch : list ndarray2) :
  (speech_started c = true -> speech_started (deliver c batch) = true) /\
  (speech_ended c = true -> speech_ended (deliver c batch) = true) /\
  (stream_active c = false -> stream_active (deliver c batch) = false).
Proof.
  destruct (deliver_flags c batch) as (Hs & He & Ha).
  split; [done|]. split; [done|].
  intros Hoff. destruct (stream_active (deliver c batch)) eqn:E; [|done].
  rewrite Ha in Hoff; done.
Qed.

Lemma outcome_self (self self' : Microphone) (timeout : Q) (env : schedule) :
  (exists out, record_until_silence self timeout env = Returned self' out) \/
  record_until_silence self timeout env = Raised self' ->
  self' = set_vad_iterator self (vad_iterator self').
Proof.
  rewrite record_until_silence_eq.
  destruct (capture_at_close self timeout env) as [c|] eqn:Hc.
  2:{ intros [[out H]|H]; done. }
  apply capture_at_close_settings in Hc.
  intros H. assert (Hself : self' = self_of c).
  { unfold result_of in H. destruct H as [[out H]|H]; repeat case_match; congruence. }
  by rewrite Hself.
Qed.

(** X3. Whatever the schedule, [record_until_silence] changes nothing of the
    microphone but its iterator: device, settings, device rate, chunk size
    and model are, when the call returns or raises, what they were. *)
Theorem record_until_silence_keeps_settings (self self' : Microphone)
    (timeout : Q) (env : schedule) :
  (exists out, record_until_silence self timeout env = Returned self' out) \/
  record_until_silence self timeout env = Raised self' ->
  device self' = device self /\ threshold self' = threshold self /\
  min_silence_duration_ms self' = min_silence_duration_ms self /\
  speech_pad_ms self' = speech_pad_ms self /\
  device_sample_rate self' = device_sample_rate self /\
  chunk_size self' = chunk_size self /\ model self' = model self.
Proof.
  intros H. apply outcome_self in H. by rewrite H.
Qed.

(** X4. No iterator state leaks into a recording: a recording made after
    [is_speech] calls, or after an earlier recording has returned or
    raised, is the recording the microphone would have made without
    them. *)
Theorem recording_starts_fresh (self : Microphone) (timeout : Q) (env : schedule) :
  (forall frames,
     record_until_silence (foldl (fun s a => (is_speech s a).1) self frames)
       timeout env = record_until_silence self timeout env) /\
  (forall self' timeout1 env1,
     (exists out, record_until_silence self timeout1 env1 = Returned self' out) \/
     record_until_silence self timeout1 env1 = Raised self' ->
     record_until_silence self' timeout env = record_until_silence self timeout env).
Proof.
  split.
  - intros frames. revert self.
    induction frames as [|a frames IH]; intros self; simpl; [done|].
    rewrite IH. unfold is_speech.
    by destruct (vad_call (vad_iterator self) (normalize a)).
  - intros self' timeout1 env1 H. apply outcome_self in H. by rewrite H.
Qed.

(** X5. The timeout ends the loop: when at some evaluation of the loop
    condition the clock is [timeout] or more past [start_time], the call is
    over (returned or raised) whatever the iterator says. *)
Theorem record_until_silence_stops_at_timeout (self : Microphone) (timeout : Q)
    (env : schedule) :
  Exists (fun p => (timeout <= p.2 - start_time env)%Q) (polls env) ->
  record_until_silence self timeout env <> Running.
Proof.
  intros Hex. rewrite record_until_silence_eq.
  unfold capture_at_close, capture_at_loop_exit.
  destruct (poll_loop_returns (mk_capture (_reset_vad self) [] false false true)
              _ _ _ Hex) as [c ->].
  simpl. unfold result_of. by repeat case_match.
Qed.

(** X6. Before the timeout, the loop is left only on the end of speech: when
    every evaluation of the loop condition finds the clock less than
    [timeout] past [start_time] and the loop is left all the same, the
    session has [speech_ended] set, and still has when the stream closes. *)
Theorem early_exit_means_speech_ended (self : Microphone) (timeout : Q)
    (env : schedule) (c : capture) :
  Forall (fun p => (p.2 - start_time env < timeout)%Q) (polls env) ->
  capture_at_close self timeout env = Some c ->
  speech_ended c = true.
Proof.
  intros Hall. unfold capture_at_close, capture_at_loop_exit.
  destruct (poll_loop _ _ _ _) as [c1|] eqn:Hloop; simpl; [|done].
  intros [= <-]. apply (poll_loop_early _ _ _ _ _ Hall) in Hloop.
  by apply deliver_flags.
Qed.

(** X7. Chunks that arrive after the loop was left on the end of speech,
    while the stream is not yet closed, are drained: the result is the same
    as if none had arrived. *)
Theorem record_until_silence_drains_after_end (self : Microphone) (timeout : Q)
    (env : schedule) (c : capture) :
  capture_at_loop_exit self timeout env = Some c ->
  speech_ended c = true ->
  record_until_silence self timeout env =
  record_until_silence self timeout
    (mk_schedule (start_time env) (polls env) []).
Proof.
  intros Hloop Hend. rewrite !record_until_silence_eq.
  unfold capture_at_close, capture_at_loop_exit in *. simpl.
  rewrite Hloop. simpl. by rewrite deliver_ended.
Qed.

(** X8. With the int16 blocks the stream is opened for, a call that returns
    returns two bytes per output sample: twice the number of captured
    frames on a 16000 Hz device; on any other, twice
    [int(frames * 16000 / device_rate)]. *)
Theorem record_until_silence_output_length (self self' : Microphone)
    (timeout : Q) (env : schedule) (c : capture) (out : list Byte.byte) :
  0 < device_sample_rate self ->
  Forall (fun p => Forall (fun b => arr2_dtype b = int16) p.1) (polls env) ->
  Forall (fun b => arr2_dtype b = int16) (before_close env) ->
  capture_at_close self timeout env = Some c ->
  record_until_silence self timeout env = Returned self' out ->
  Z.of_nat (length out) =
    2 * (if Z.eqb (device_sample_rate self) VAD_SAMPLE_RATE
         then total_frames (audio_chunks c)
         else total_frames (audio_chunks c) * VAD_SAMPLE_RATE / device_sample_rate self).
Proof.
  intros Hrate Hp Hb Hc. rewrite record_until_silence_eq, Hc.
  pose proof (capture_at_close_chunk_dtype int16 _ _ _ _ Hp Hb Hc) as Hdt.
  apply capture_at_close_settings in Hc.
  assert (Hr : device_sample_rate (self_of c) = device_sample_rate self)
    by (by rewrite Hc).
  unfold result_of. rewrite Hr.
  destruct (audio_chunks c) as [|a l] eqn:Hch.
  { intros [= _ <-]. simpl. by destruct (Z.eqb _ _). }
  rewrite (np_concatenate_same_dtype int16) by done.
  pose proof (len_concat_chunks int16 (a :: l)) as Hcat.
  assert (Hdt_cat : arr_dtype (mk_ndarray int16 (concat (map arr_data (a :: l)))) = int16)
    by done.
  set (audio := mk_ndarray int16 (concat (map arr_data (a :: l)))) in *.
  assert (Hframes : 0 <= total_frames (a :: l)).
  { rewrite <- Hcat. apply len_nonneg. }
  change (Some audio ≫= _) with (_resample audio (device_sample_rate self) VAD_SAMPLE_RATE).
  destruct (_resample _ _ _) as [audio_16k|] eqn:Hres; [|done].
  intros [= _ <-]. rewrite length_tobytes.
  destruct (Z.eqb_spec (device_sample_rate self) VAD_SAMPLE_RATE) as [He|Hne].
  - rewrite _resample_eq_rates in Hres by done. injection Hres as <-.
    rewrite Hdt_cat. unfold len in Hcat. simpl itemsize. lia.
  - apply _resample_Some in Hres as [Hl Hd]; [|done|lia].
    rewrite Hd, Hdt_cat. rewrite Hcat in Hl.
    rewrite Z.quot_div_nonneg in Hl by (unfold VAD_SAMPLE_RATE; lia).
    unfold len in Hl. simpl itemsize. lia.
Qed.

(** X9. On a 16000 Hz device nothing is resampled: a call that is over
    returns the bytes of the captured chunks, one chunk after the other. *)
Theorem record_until_silence_16k_raw (self : Microphone) (timeout : Q)
    (env : schedule) (c : capture) :
  device_sample_rate self = VAD_SAMPLE_RATE ->
  Forall (fun p => Forall (fun b => arr2_dtype b = int16) p.1) (polls env) ->
  Forall (fun b => arr2_dtype b = int16) (before_close env) ->
  capture_at_close self timeout env = Some c ->
  record_until_silence self timeout env =
    Returned (self_of c) (concat (map tobytes (audio_chunks c))).
Proof.
  intros Hrate Hp Hb Hc. rewrite record_until_silence_eq, Hc.
  pose proof (capture_at_close_chunk_dtype int16 _ _ _ _ Hp Hb Hc) as Hdt.
  apply capture_at_close_settings in Hc.
  assert (Hr : device_sample_rate (self_of c) = VAD_SAMPLE_RATE)
    by (by rewrite Hc).
  unfold result_of. rewrite Hr.
  destruct (audio_chunks c) as [|a l] eqn:Hch; [done|].
  rewrite (np_concatenate_same_dtype int16) by done.
  set (audio := mk_ndarray int16 (concat (map arr_data (a :: l)))).
  change (Some audio ≫= _) with (_resample audio VAD_SAMPLE_RATE VAD_SAMPLE_RATE).
  rewrite _resample_eq_rates by done.
  f_equal. subst audio. by rewrite (tobytes_concat_chunks int16).
Qed.

(** ** Further properties of the chunk size, [record_seconds] and [is_speech] *)

Lemma resampled_chunk_bounds (rate : Z) :
  16000 <= rate ->
  511 <= Z.quot (chunk_size_of rate * VAD_SAMPLE_RATE) rate <= 512 /\
  (Z.quot (chunk_size_of rate * VAD_SAMPLE_RATE) rate = 512 <-> rate mod 125 = 0).
Proof.
  intros Hr. unfold chunk_size_of, VAD_SAMPLE_RATE, VAD_CHUNK_SAMPLES.
  rewrite (Z.quot_div_nonneg (512 * rate)) by lia.
  pose proof (Z.mul_div_le (512 * rate) 16000).
  pose proof (Z.mul_succ_div_gt (512 * rate) 16000).
  set (k := 512 * rate / 16000) in *.
  assert (Hk : 0 <= k) by (apply Z.div_pos; lia).
  rewrite Z.quot_div_nonneg by lia.
  assert (Hup : k * 16000 / rate <= 512) by (apply Z.div_le_upper_bound; lia).
  assert (Hlow : 511 <= k * 16000 / rate) by (apply Z.div_le_lower_bound; lia).
  split; [lia|]. split.
  - intros Hn. pose proof (Z.mul_div_le (k * 16000) rate ltac:(lia)) as Hm.
    rewrite Hn in Hm.
    assert (Hw : rate = (94 * k - 3 * rate) * 125) by lia.
    rewrite Hw. by apply Z.mod_mul.
  - intros Hmod.
    assert (Hq : rate = 125 * (rate / 125)) by (apply Z_div_exact_full_2; lia).
    assert (Hk4 : k = 4 * (rate / 125)) by lia.
    assert (512 <= k * 16000 / rate); [|lia].
    apply Z.div_le_lower_bound; lia.
Qed.

(** X10. On a device of 16000 Hz or more, a chunk of the derived size
    resamples to 511 or 512 samples, so the frame for the iterator carries
    at most one padding zero; it is full exactly when the device rate is a
    multiple of 125 (48000 is, 44100 is not). *)
Theorem vad_frame_padding (self : Microphone) (chunk resampled : ndarray) :
  16000 <= device_sample_rate self ->
  chunk_size self = chunk_size_of (device_sample_rate self) ->
  len chunk = chunk_size self ->
  _resample chunk (device_sample_rate self) VAD_SAMPLE_RATE = Some resampled ->
  511 <= len resampled <= 512 /\
  (len resampled = 512 <-> device_sample_rate self mod 125 = 0).
Proof.
  intros Hr Hcs Hlen Hres.
  assert (Hl : len resampled =
               Z.quot (chunk_size_of (device_sample_rate self) * VAD_SAMPLE_RATE)
                 (device_sample_rate self)).
  { destruct (Z.eq_dec (device_sample_rate self) VAD_SAMPLE_RATE) as [He|Hne].
    - rewrite _resample_eq_rates in Hres by done. injection Hres as <-.
      rewrite Hlen, Hcs, He. reflexivity.
    - apply _resample_Some in Hres as [-> _]; [|done|lia]. by rewrite Hlen, Hcs. }
  rewrite Hl. by apply resampled_chunk_bounds.
Qed.

Lemma py_int_mul_whole (a b : Z) : py_int (inject_Z a * inject_Z b) = a * b.
Proof. unfold py_int. simpl. apply Z.quot_1_r. Qed.

(** X11. For a whole number [k >= 1] of seconds, on a device of any
    positive rate, [record_seconds(k)] records [rate * k] frames and, the
    recording succeeding, returns exactly [32000 * k] bytes: no sample is
    lost to rounding. *)
Theorem record_seconds_whole_seconds (self : Microphone) (k : Z) :
  0 < device_sample_rate self -> 0 < k ->
  is_Some (sd_rec (device_sample_rate self * k) (device_sample_rate self)) ->
  exists out, record_seconds self (inject_Z k) = Some out /\
    Z.of_nat (length out) = 32000 * k.
Proof.
  intros Hrate Hk [audio Hrec]. unfold record_seconds.
  rewrite py_int_mul_whole, Hrec. simpl.
  destruct (sd_rec_frames _ _ _ Hrec) as [Hdt Hrows].
  assert (Hlen : len (column0 audio) = device_sample_rate self * k)
    by by rewrite len_column0.
  destruct (Z.eq_dec (device_sample_rate self) VAD_SAMPLE_RATE) as [He|Hne].
  - rewrite _resample_eq_rates by done. simpl. eexists. split; [done|].
    rewrite length_tobytes. simpl arr_dtype. rewrite Hdt. simpl itemsize.
    unfold len in Hlen. rewrite He in Hlen.
    unfold VAD_SAMPLE_RATE in Hlen. lia.
  - assert (Hnum : Z.quot (len (column0 audio) * VAD_SAMPLE_RATE) (device_sample_rate self)
                   = 16000 * k).
    { rewrite Hlen. unfold VAD_SAMPLE_RATE.
      replace (device_sample_rate self * k * 16000)
        with (16000 * k * device_sample_rate self) by lia.
      apply Z.quot_mul. lia. }
    assert (Hsome : is_Some (_resample (column0 audio) (device_sample_rate self)
                               VAD_SAMPLE_RATE)).
    { apply _resample_returns; [done|lia| |lia].
      intros Hnil. unfold len in Hlen. rewrite Hnil in Hlen. simpl in Hlen. nia. }
    destruct Hsome as [audio_16k Hres]. rewrite Hres. simpl.
    apply _resample_Some in Hres as [Hl Hd]; [|done|lia].
    eexists. split; [done|].
    rewrite length_tobytes, Hd. simpl arr_dtype. rewrite Hdt. simpl itemsize.
    rewrite Hnum in Hl. unfold len in Hl. lia.
Qed.

Lemma py_int_whole (q : Q) (n : Z) : (q == inject_Z n)%Q -> py_int q = n.
Proof.
  unfold Qeq, py_int. simpl. intros H. rewrite Z.mul_1_r in H. rewrite H.
  apply Z.quot_mul. done.
Qed.

(** X12. On a 16000 Hz device [record_seconds] does not resample.  For a
    duration that is a whole number [n] of frames ([16000 * duration = n],
    with [n] below [2^53], so that the product of line 194 is exact), it
    records [n] frames and returns the bytes of the recording as they are,
    two for each frame; for a duration of 0 that is the empty byte
    sequence. *)
Theorem record_seconds_16k_raw (self : Microphone) (duration : Q) (n : Z)
    (audio : ndarray2) :
  device_sample_rate self = VAD_SAMPLE_RATE ->
  (inject_Z VAD_SAMPLE_RATE * duration == inject_Z n)%Q ->
  n < 2 ^ 53 ->
  sd_rec n VAD_SAMPLE_RATE = Some audio ->
  record_seconds self duration = Some (tobytes (column0 audio)) /\
  Z.of_nat (length (tobytes (column0 audio))) = 2 * n /\
  (n = 0 -> tobytes (column0 audio) = []).
Proof.
  intros Hrate Hwhole _ Hrec. apply py_int_whole in Hwhole.
  assert (Hout : record_seconds self duration = Some (tobytes (column0 audio))).
  { unfold record_seconds, mbind, option_bind. rewrite Hrate, Hwhole, Hrec.
    by rewrite _resample_eq_rates. }
  rewrite Hout.
  destruct (sd_rec_frames _ _ _ Hrec) as [Hdt Hrows].
  assert (Hlen : Z.of_nat (length (tobytes (column0 audio))) = 2 * n).
  { rewrite length_tobytes. simpl arr_dtype. rewrite Hdt. simpl itemsize.
    simpl arr_data. rewrite length_map. lia. }
  split; [done|]. split; [done|].
  intros H0. rewrite H0 in Hlen. destruct (tobytes (column0 audio)); [done|].
  simpl in Hlen. lia.
Qed.

(** X13. [is_speech] scales int16 samples into [-1, 1): when the conversion
    to float32 is exact on the int16 range, an int16 frame reaches the
    iterator as a float32 frame of the same length whose values are all at
    least -1 and less than 1. *)
Theorem normalize_int16_range (audio_chunk : ndarray) :
  arr_dtype audio_chunk = int16 ->
  (forall z, -32768 <= z <= 32767 ->
     (astype_elem float32 (inject_Z z) == inject_Z z)%Q) ->
  Forall (fun q => exists z, q = inject_Z z /\ -32768 <= z <= 32767)
    (arr_data audio_chunk) ->
  arr_dtype (normalize audio_chunk) = float32 /\
  len (normalize audio_chunk) = len audio_chunk /\
  Forall (fun y => (-1 <= y)%Q /\ (y < 1)%Q) (arr_data (normalize audio_chunk)).
Proof.
  intros Hdt Hexact Hvals. unfold normalize.
  rewrite bool_decide_eq_true_2 by (rewrite Hdt; done). simpl.
  split; [done|]. split.
  { unfold len. simpl. by rewrite !length_map. }
  rewrite map_map. apply Forall_fmap.
  eapply Forall_impl; [exact Hvals|].
  intros q (z & -> & Hz). simpl. rewrite (Hexact z Hz). split.
  - apply Qle_shift_div_l; [done|]. unfold Qle. simpl. lia.
  - apply Qlt_shift_div_r; [done|]. unfold Qlt. simpl. lia.
Qed.

(** X14. Handing [is_speech] a frame that was normalized beforehand is
    handing it the raw frame: the scaling is applied once, never twice. *)
Theorem is_speech_normalized_input (self : Microphone) (audio_chunk : ndarray) :
  normalize (normalize audio_chunk) = normalize audio_chunk /\
  is_speech self (normalize audio_chunk) = is_speech self audio_chunk.
Proof.
  assert (Hn : normalize (normalize audio_chunk) = normalize audio_chunk).
  { unfold normalize at 1.
    assert (Hd : arr_dtype (normalize audio_chunk) = float32).
    { unfold normalize. by case_bool_decide as Hne; [|destruct (arr_dtype audio_chunk)]. }
    by rewrite bool_decide_eq_false_2 by (rewrite Hd; auto). }
  split; [done|]. unfold is_speech. by rewrite Hn.
Qed.

Lemma poll_loop_flags (c c' : capture) (start timeout : Q)
    (ps : list (list ndarray2 * Q)) :
  poll_loop c start timeout ps = Some c' ->
  (speech_ended c = true -> speech_ended c' = true) /\
  (stream_active c' = true -> stream_active c = true).
Proof.
  revert c. induction ps as [|[batch now] ps IH]; intros c; simpl; [done|].
  destruct (deliver_flags c batch) as (_ & He & Ha).
  destruct (negb _ && _).
  - intros H. destruct (IH _ H) as [IHe IHa]. split; auto.
  - intros [= <-]. split; auto.
Qed.

Lemma poll_loop_all_chunks (c c' : capture) (start timeout : Q)
    (ps : list (list ndarray2 * Q)) :
  poll_loop c start timeout ps = Some c' ->
  speech_ended c' = false -> stream_active c' = true ->
  exists n, (n <= length ps)%nat /\
    audio_chunks c' =
      audio_chunks c ++ map column0 (concat (map fst (take n ps))).
Proof.
  revert c. induction ps as [|[batch now] ps IH]; intros c; simpl; [done|].
  destruct (deliver_chunks c batch) as (k & _ & Hch & Hall).
  destruct (deliver_flags c batch) as (_ & He & Ha).
  destruct (negb _ && _) eqn:Hcond.
  - intros Hloop Hend Hact.
    destruct (poll_loop_flags _ _ _ _ _ Hloop) as [Pe Pa].
    destruct (IH _ Hloop Hend Hact) as (n & Hn & Heq).
    exists (S n). split; [lia|]. simpl.
    rewrite Heq, Hch, Hall.
    + by rewrite firstn_all, map_app, app_assoc.
    + destruct (speech_ended (deliver c batch)); [|done].
      rewrite Pe in Hend; done.
    + by apply Pa.
  - intros [= <-] Hend Hact. exists 1%nat. split; [lia|]. simpl.
    rewrite Hch, (Hall Hend Hact), firstn_all. by rewrite app_nil_r.
Qed.

(** X15. No chunk is lost while the recording runs: when the stream closes
    with speech not ended and the stream not aborted, the accumulation
    buffer holds the raw first column of every block delivered up to the
    last evaluation of the loop condition and between it and the close, in
    the order of delivery. *)
Theorem record_until_silence_keeps_every_chunk (self : Microphone) (timeout : Q)
    (env : schedule) (c : capture) :
  capture_at_close self timeout env = Some c ->
  speech_ended c = false -> stream_active c = true ->
  exists n, (n <= length (polls env))%nat /\
    audio_chunks c =
      map column0 (concat (map fst (take n (polls env))) ++ before_close env).
Proof.
  unfold capture_at_close, capture_at_loop_exit.
  destruct (poll_loop _ _ _ _) as [c1|] eqn:Hloop; simpl; [|done].
  intros [= <-] Hend Hact.
  destruct (deliver_chunks c1 (before_close env)) as (k & _ & Hch & Hall).
  destruct (deliver_flags c1 (before_close env)) as (_ & He & Ha).
  destruct (poll_loop_all_chunks _ _ _ _ _ Hloop) as (n & Hn & Heq).
  - destruct (speech_ended c1); [|done]. rewrite He in Hend; done.
  - by apply Ha.
  - exists n. split; [done|].
    rewrite Hch, (Hall Hend Hact), firstn_all, Heq. simpl.
    by rewrite map_app.
Qed.

(** X16. Whatever the device delivers, what reaches the iterator is a
    frame: whenever [_resample_to_vad_chunk] returns, it returns exactly
    512 float32 samples; and on a 16000 Hz device, where nothing is
    resampled, it always returns. *)
Theorem vad_chunk_is_a_frame (self : Microphone) (audio : ndarray) :
  (forall frame, _resample_to_vad_chunk self audio = Some frame ->
     len frame = VAD_CHUNK_SAMPLES /\ arr_dtype frame = float32) /\
  (device_sample_rate self = VAD_SAMPLE_RATE ->
   _resample_to_vad_chunk self audio =
     Some (astype float32 (fit_to_frame audio VAD_CHUNK_SAMPLES))).
Proof.
  split.
  - intros frame. unfold _resample_to_vad_chunk.
    destruct (if negb _ then _ else _) as [resampled|]; simpl; [|done].
    intros [= <-]. split; [|done].
    rewrite len_astype. by apply len_fit_to_frame.
  - intros Hrate. unfold _resample_to_vad_chunk. rewrite Hrate.
    by rewrite Z.eqb_refl.
Qed.

End Microphone.

Arguments device {Model VADIterator_state} _.
Arguments threshold {Model VADIterator_state} _.
Arguments min_silence_duration_ms {Model VADIterator_state} _.
Arguments speech_pad_ms {Model VADIterator_state} _.
Arguments device_sample_rate {Model VADIterator_state} _.
Arguments chunk_size {Model VADIterator_state} _.
Arguments model {Model VADIterator_state} _.
Arguments vad_iterator {Model VADIterator_state} _.
Arguments mk_Microphone {Model VADIterator_state} _ _ _ _ _ _ _ _.
Arguments mk_capture {Model VADIterator_state} _ _ _ _ _.
Arguments self_of {Model VADIterator_state} _.
Arguments audio_chunks {Model VADIterator_state} _.
Arguments speech_started {Model VADIterator_state} _.
Arguments speech_ended {Model VADIterator_state} _.
Arguments stream_active {Model VADIterator_state} _.
Arguments Running {Model VADIterator_state}.
Arguments Raised {Model VADIterator_state} _.
Arguments Returned {Model VADIterator_state} _ _.

(** ** The model on concrete inputs *)

(** *** The stand-ins meet the contracts *)

Lemma nearest_resample_length (x : ndarray) (num : Z) (y : list Q) :
  nearest_resample x num = Some y -> Z.of_nat (length y) = num.
Proof.
  unfold nearest_resample. destruct (arr_data x) as [|x0 l]; [done|].
  destruct (Z.leb_spec num 0); [done|].
  intros [= <-]. rewrite length_map, length_seq. lia.
Qed.

Lemma nearest_resample_returns (x : ndarray) (num : Z) :
  arr_data x <> [] -> 0 < num -> is_Some (nearest_resample x num).
Proof.
  intros Hx Hnum. unfold nearest_resample.
  destruct (arr_data x) as [|x0 l]; [done|].
  destruct (Z.leb_spec num 0); [lia|]. by eexists.
Qed.

Lemma length_le_split (n : nat) (z : Z) : length (le_split n z) = n.
Proof. revert z. induction n as [|n IH]; intros z; simpl; [done|]. by rewrite IH. Qed.

Lemma le_bytes_length (d : dtype) (q : Q) : length (le_bytes d q) = itemsize d.
Proof. apply length_le_split. Qed.

Lemma silent_rec_frames (samples rate : Z) (a : ndarray2) :
  silent_rec samples rate = Some a ->
  arr2_dtype a = int16 /\ Z.of_nat (length (arr2_rows a)) = samples.
Proof.
  unfold silent_rec. destruct (Z.leb_spec 0 samples); [|done].
  intros [= <-]. simpl. rewrite length_replicate. split; [done|lia].
Qed.

Lemma silent_rec_returns (samples rate : Z) :
  0 <= samples -> is_Some (silent_rec samples rate).
Proof.
  intros H. unfold silent_rec. destruct (Z.leb_spec 0 samples); [|lia]. by eexists.
Qed.

(** *** Concrete arrays, microphones and sessions *)

(** Five int16 samples. *)
Definition five_samples : ndarray :=
  mk_ndarray int16 (map inject_Z [100; -200; 300; -400; 500]).

(** A silent int16 block of [n] frames, as the stream delivers it. *)
Definition silent_block (n : nat) : ndarray2 :=
  mk_ndarray2 int16 (replicate n [0%Q]).

(** [Microphone(device=d, threshold=thr)] with the stand-ins. *)
Definition toy_init (d : Z) (thr : Q) : option (Microphone unit bool) :=
  __init__ unit bool tt toy_vad_new toy_query_devices (inl 0) (Some (inl d)) thr 500 100.

(** The microphones [toy_init] builds on devices 0 (44100 Hz) and 1
    (22050 Hz). *)
Definition mic_44100 : Microphone unit bool :=
  mk_Microphone (Some (inl 0)) (1 # 2) 500 100 44100 1411 tt false.

Definition mic_22050 : Microphone unit bool :=
  mk_Microphone (Some (inl 1)) (1 # 2) 500 100 22050 705 tt false.

(** A session of [mic_44100] that has seen the end of speech. *)
Definition ended_capture : capture unit bool :=
  mk_capture mic_44100 [column0 (silent_block 3)] true true true.

Example toy_init_44100 : toy_init 0 (1 # 2) = Some mic_44100.
Proof. reflexivity. Qed.

Example toy_init_22050 : toy_init 1 (1 # 2) = Some mic_22050.
Proof. reflexivity. Qed.

(** *** The properties at concrete inputs *)

(** Five samples from 44100 to 16000: [5 * 16000 / 44100] is about 1.81,
    and the output has one sample. *)
Lemma resample_length_floor_witness :
  exists out, _resample nearest_resample cast_elem five_samples 44100 16000 = Some out /\
    len out = 1 /\ arr_dtype out = int16.
Proof.
  destruct (resample_length_floor nearest_resample cast_elem
              nearest_resample_length nearest_resample_returns
              five_samples 44100 16000) as [Hlen Hret]; [lia|lia|lia|reflexivity|].
  destruct Hret as [out Hout]; [done|reflexivity|].
  exists out. split; [exact Hout|]. exact (Hlen out Hout).
Defined.

(** C2 as stated fails: [round(5 * 16000 / 44100)] is 2, and [_resample]
    returns one sample. *)
Lemma resample_round_counterexample :
  0 < 44100 /\ 0 < 16000 /\ 44100 <> 16000 /\
  py_round (len five_samples * 16000 # 44100) = 2 /\
  exists out, _resample nearest_resample cast_elem five_samples 44100 16000 = Some out /\
    len out = 1 /\
    len out <> py_round (len five_samples * 16000 # 44100).
Proof.
  split_and!; [lia|lia|lia|reflexivity|].
  eexists. split; [reflexivity|]. split; [reflexivity|]. by vm_compute.
Qed.

(** Five samples fitted to a frame of 512 and to a frame of 3. *)
Lemma fit_to_frame_length_witness :
  len (fit_to_frame five_samples 512) = 512 /\
  arr_data (fit_to_frame five_samples 512) =
    arr_data five_samples ++ replicate 507 0%Q /\
  len (fit_to_frame five_samples 3) = 3 /\
  arr_data (fit_to_frame five_samples 3) = map inject_Z [100; -200; 300].
Proof.
  destruct (fit_to_frame_length five_samples 512) as (H1 & _ & _ & H2 & _); [lia|].
  destruct (fit_to_frame_length five_samples 3) as (H3 & _ & H4 & _); [lia|].
  split; [exact H1|]. split; [apply H2; reflexivity|].
  split; [exact H3|]. apply H4. reflexivity.
Defined.

(** The microphone on the 22050 Hz device requests chunks of 705 frames. *)
Lemma init_chunk_size_floor_witness :
  chunk_size mic_22050 = 512 * 22050 / 16000 /\
  chunk_size mic_22050 = 705.
Proof.
  destruct (init_chunk_size_floor unit bool tt toy_vad_new toy_query_devices
              (inl 0) (Some (inl 1)) (1 # 2) 500 100 mic_22050) as [H _];
    [reflexivity|split; reflexivity|].
  split; [exact H|reflexivity].
Defined.

(** C8.  At a device rate of 22050 the chunk size the code requests is not
    [round(512 * 22050 / 16000)]: the quotient is 705.6, [round] gives 706,
    and [__init__] stores 705 (on doubles as on exact numbers).  That is
    less than the exact size, not slightly more as the comment of lines
    98-99 has it, and such a chunk resamples to 511 samples, short of the
    512 of a frame. *)
Theorem chunk_size_22050_falls_short :
  exists self, toy_init 1 (1 # 2) = Some self /\
    device_sample_rate self = 22050 /\
    chunk_size self = 705 /\
    Float64.int_mul_div 512 22050 16000 = Some 705 /\
    py_round (512 * device_sample_rate self # 16000) = 706 /\
    chunk_size self <> py_round (512 * device_sample_rate self # 16000) /\
    (inject_Z (chunk_size self) < 512 * device_sample_rate self # 16000)%Q /\
    Z.quot (chunk_size self * VAD_SAMPLE_RATE) (device_sample_rate self) = 511.
Proof.
  exists mic_22050. split_and!; try reflexivity. by vm_compute.
Qed.

(** C7 as stated fails: with a threshold of 1.5 the construction succeeds,
    and the stored threshold is 1.5, outside [0, 1]. *)
Lemma init_threshold_counterexample :
  ~ (0 <= 3 # 2 <= 1)%Q /\
  exists self, toy_init 0 (3 # 2) = Some self /\
    threshold self = (3 # 2)%Q /\
    ~ (0 <= threshold self <= 1)%Q.
Proof.
  assert (Hout : ~ (0 <= 3 # 2 <= 1)%Q).
  { intros [_ H]. unfold Qle in H. simpl in H. lia. }
  split; [exact Hout|].
  eexists. split; [reflexivity|]. split; [reflexivity|exact Hout].
Qed.

(** A chunk of 1411 frames at 44100 Hz resamples to 511 samples, and the
    frame for the iterator is these followed by one zero. *)
Lemma vad_chunk_only_pads_witness :
  exists resampled,
    _resample nearest_resample cast_elem (column0 (silent_block 1411)) 44100 16000
      = Some resampled /\
    len resampled = 511 /\
    _resample_to_vad_chunk nearest_resample cast_elem unit bool mic_44100
      (column0 (silent_block 1411))
      = Some (astype cast_elem float32 (np_pad_right resampled 1)).
Proof.
  destruct (vad_chunk_only_pads nearest_resample cast_elem unit bool
              nearest_resample_length nearest_resample_returns
              mic_44100 (column0 (silent_block 1411))) as [Hlen Hret];
    [reflexivity|reflexivity|reflexivity|].
  destruct Hret as [resampled Hres]; [simpl; lia|].
  exists resampled. destruct (Hlen resampled Hres) as (Hl & _ & Hfit).
  split; [exact Hres|]. split; [exact Hl|].
  rewrite Hfit, Hl. reflexivity.
Defined.

(** A session that has seen the end of speech ignores further blocks. *)
Lemma callback_noop_after_end_witness :
  callback nearest_resample cast_elem unit bool toy_vad_call
    ended_capture (silent_block 1411) = (ended_capture, true) /\
  deliver nearest_resample cast_elem unit bool toy_vad_call
    ended_capture [silent_block 1411; silent_block 1411] = ended_capture.
Proof.
  destruct (callback_noop_after_end nearest_resample cast_elem unit bool
              toy_vad_call ended_capture) as [Hstep Hseq]; [reflexivity|].
  split; [apply Hstep|apply Hseq].
Defined.

(** A call with timeout 0 whose loop condition is evaluated at the very
    clock reading of [start_time], with no chunk delivered. *)
Lemma record_until_silence_timeout_0_witness :
  record_until_silence nearest_resample cast_elem le_bytes unit bool
    toy_vad_new toy_vad_call mic_44100 0
    (mk_schedule 100 [([], 100%Q)] [])
  = Returned (_reset_vad unit bool toy_vad_new mic_44100) [].
Proof.
  apply (record_until_silence_timeout_0 nearest_resample cast_elem le_bytes
           unit bool toy_vad_new toy_vad_call mic_44100
           (mk_schedule 100 [([], 100%Q)] []) 100%Q []).
  - reflexivity.
  - apply Qle_refl.
  - reflexivity.
Defined.

(** One second of silence recorded at 44100 Hz. *)
Lemma record_seconds_1s_at_44100_witness :
  exists out,
    record_seconds nearest_resample cast_elem le_bytes unit bool silent_rec
      mic_44100 1 = Some out /\
    Z.of_nat (length out) = 32000 /\
    31998 <= Z.of_nat (length out) <= 32002.
Proof.
  apply (record_seconds_1s_at_44100 nearest_resample cast_elem le_bytes
           unit bool silent_rec nearest_resample_length
           nearest_resample_returns le_bytes_length silent_rec_frames mic_44100).
  - reflexivity.
  - apply silent_rec_returns. lia.
Defined.

(** *** A whole session *)

(** On the 16000 Hz device: a silent block, a loud one (speech starts), a
    silent one (speech ends) and one more, which the callback ignores; the
    result is the bytes of the first three blocks. *)
Definition mic_16000 : Microphone unit bool :=
  mk_Microphone (Some (inl 2)) (1 # 2) 500 100 16000 512 tt false.

Definition loud_block (n : nat) : ndarray2 :=
  mk_ndarray2 int16 (replicate n [inject_Z 258]).

Example session_until_silence :
  toy_init 2 (1 # 2) = Some mic_16000 /\
  record_until_silence nearest_resample cast_elem le_bytes unit bool
    toy_vad_new toy_vad_call mic_16000 30
    (mk_schedule 100
       [([silent_block 2; loud_block 2], 100 + (1 # 100));
        ([silent_block 2; silent_block 2], 100 + (2 # 100))]%Q
       [silent_block 2])
  = Returned mic_16000
      (map byte_of_Z [0; 0; 0; 0; 2; 1; 2; 1; 0; 0; 0; 0]).
Proof. split; reflexivity. Qed.

(** *** The quotients on doubles *)

Example double_resample_five : Float64.int_mul_div 5 16000 44100 = Some 1.
Proof. reflexivity. Qed.

Example double_chunk_22050 : Float64.int_mul_div 512 22050 16000 = Some 705.
Proof. reflexivity. Qed.

Example double_record_1s :
  Float64.to_int (PrimFloat.mul (Float64.of_int 44100) 1%float) = Some 44100 /\
  Float64.int_mul_div 44100 16000 44100 = Some 16000.
Proof. split; reflexivity. Qed.

Lemma vad_path_agrees_from_sound (n : nat) (rate k : Z) :
  Float64.vad_path_agrees_from n rate = true ->
  rate <= k < rate + Z.of_nat n ->
  Float64.vad_path_agrees k = true.
Proof.
  revert rate. induction n as [|n IH]; intros rate Hall Hk; [lia|].
  cbn [Float64.vad_path_agrees_from] in Hall.
  apply andb_true_iff in Hall as [Hhere Hrest].
  destruct (Z.eq_dec k rate) as [->|Hne]; [done|].
  apply (IH (rate + 1)); [done|lia].
Qed.

Lemma agrees_eq (a b c : Z) :
  c <> 0 -> Float64.agrees a b c = true ->
  Float64.int_mul_div a b c = Some (Z.quot (a * b) c).
Proof.
  intros Hc. unfold Float64.agrees, int_truediv.
  destruct (Z.eqb_spec c 0); [done|].
  destruct (Float64.int_mul_div a b c) as [x|]; [|done].
  intros H. f_equal. by apply Z.eqb_eq.
Qed.

(** For every device rate from 1 to 50000 and for the usual higher ones,
    the chunk size and the resampled length of a chunk, computed on doubles
    as Python does, are the truncated exact quotients of the model. *)
Lemma doubles_agree_on_vad_path (rate : Z) :
  1 <= rate <= 50000 \/ In rate Float64.high_rates ->
  Float64.int_mul_div 512 rate 16000 = Some (chunk_size_of rate) /\
  Float64.int_mul_div (chunk_size_of rate) 16000 rate =
    Some (Z.quot (chunk_size_of rate * VAD_SAMPLE_RATE) rate).
Proof.
  intros Hr.
  assert (Hpos : 0 < rate).
  { destruct Hr as [Hr|Hr]; [lia|]. unfold Float64.high_rates in Hr.
    simpl in Hr. lia. }
  assert (H : Float64.vad_path_agrees rate = true).
  { destruct Hr as [Hr|Hr].
    - assert (Hall : Float64.vad_path_agrees_from (Z.to_nat 50000) 1 = true)
        by (vm_compute; reflexivity).
      apply (vad_path_agrees_from_sound _ 1 rate Hall). lia.
    - assert (Hall : forallb Float64.vad_path_agrees Float64.high_rates = true)
        by (vm_compute; reflexivity).
      rewrite forallb_forall in Hall. by apply Hall. }
  unfold Float64.vad_path_agrees in H. apply andb_true_iff in H as [H1 H2].
  split.
  - by apply agrees_eq.
  - apply agrees_eq in H2; [|lia]. exact H2.
Qed.

(** * Device enumeration ([list_audio_devices], [print_audio_devices]) *)

(** The keys of a sounddevice device dict that the module reads. *)
Record device_info := mk_device_info {
  name : string;
  max_input_channels : Z;
  default_samplerate : Q
}.

(** A dict of the result, with its keys ["id"], ["name"], ["channels"],
    ["sample_rate"] and ["is_default"]. *)
Record device_entry := mk_device_entry {
  dev_id : Z;
  dev_name : string;
  dev_channels : Z;
  dev_sample_rate : Q;
  dev_is_default : bool
}.

(** [s * n] on a string. *)
Fixpoint str_mul (s : string) (n : nat) : string :=
  match n with
  | O => ""
  | S n' => s +:+ str_mul s n'
  end.

Section Devices.

(** [sd.query_devices()], [sd.default.device[0]], and Python's formatting
    of a float in an f-string. *)
Variable all_devices : list device_info.
Variable default_device : Z + string.
Variable str_float : Q -> string.

(** [i == sd.default.device[0]] *)
Definition is_default_id (i : Z) : bool :=
  match default_device with
  | inl k => Z.eqb i k
  | inr _ => false
  end.

(** The dict appended for the device [dev] at index [i]. *)
Definition entry_of (i : Z) (dev : device_info) : device_entry :=
  mk_device_entry i (name dev) (max_input_channels dev)
    (default_samplerate dev) (is_default_id i).

(** The [for i, dev in enumerate(devices)] loop, from index [i] on, with
    the list [result] built so far. *)
Fixpoint list_audio_devices_loop (input_only : bool) (i : Z)
    (devices : list device_info) (result : list device_entry)
    : list device_entry :=
  match devices with
  | [] => result
  | dev :: rest =>
      if input_only && Z.eqb (max_input_channels dev) 0
      then list_audio_devices_loop input_only (i + 1) rest result
      else list_audio_devices_loop input_only (i + 1) rest
             (result ++ [entry_of i dev])
  end.

Definition list_audio_devices (input_only : bool) : list device_entry :=
  list_audio_devices_loop input_only 0 all_devices [].

(** The two lines printed for one device. *)
Definition device_lines (dev : device_entry) : list string :=
  let default := if dev_is_default dev then " (default)" else "" in
  [ "  [" +:+ pretty (dev_id dev) +:+ "] " +:+ dev_name dev +:+ default;
    "      Channels: " +:+ pretty (dev_channels dev) +:+ ", Sample Rate: "
      +:+ str_float (dev_sample_rate dev) ].

(** [print_audio_devices(input_only)]: the lines it prints. *)
Definition print_audio_devices (input_only : bool) : list string :=
  let devices := list_audio_devices input_only in
  ["Available audio devices:"; str_mul "-" 60]
  ++ concat (map device_lines devices)
  ++ [str_mul "-" 60].

(** ** Properties *)

(** The entries the loop adds, without the accumulator. *)
Fixpoint entries_from (input_only : bool) (i : Z) (devices : list device_info)
    : list device_entry :=
  match devices with
  | [] => []
  | dev :: rest =>
      (if input_only && Z.eqb (max_input_channels dev) 0 then []
       else [entry_of i dev])
      ++ entries_from input_only (i + 1) rest
  end.

Lemma list_audio_devices_loop_eq (input_only : bool) (i : Z)
    (devices : list device_info) (result : list device_entry) :
  list_audio_devices_loop input_only i devices result =
    result ++ entries_from input_only i devices.
Proof.
  revert i result. induction devices as [|dev rest IH]; intros i result; simpl.
  - by rewrite app_nil_r.
  - destruct (input_only && _); rewrite IH; [done|]. by rewrite <- app_assoc.
Qed.

Lemma list_audio_devices_eq (input_only : bool) :
  list_audio_devices input_only = entries_from input_only 0 all_devices.
Proof. unfold list_audio_devices. by rewrite list_audio_devices_loop_eq. Qed.

Lemma entries_from_sound (input_only : bool) (i : Z) (devices : list device_info) :
  0 <= i ->
  Forall (fun e =>
            i <= dev_id e /\
            exists dev, devices !! Z.to_nat (dev_id e - i) = Some dev /\
                        e = entry_of (dev_id e) dev /\
                        (input_only = true -> dev_channels e <> 0))
    (entries_from input_only i devices).
Proof.
  revert i. induction devices as [|dev rest IH]; intros i Hi; simpl; [done|].
  apply Forall_app. split.
  - destruct input_only; simpl.
    + destruct (Z.eqb_spec (max_input_channels dev) 0) as [|Hne]; [done|].
      apply Forall_singleton. simpl. split; [lia|]. exists dev.
      replace (i - i) with 0 by lia. done.
    + apply Forall_singleton. simpl. split; [lia|]. exists dev.
      replace (i - i) with 0 by lia. done.
  - eapply Forall_impl; [apply (IH (i + 1)); lia|].
    intros e (Hle & dev' & Hlook & He & Hch). split; [lia|]. exists dev'.
    split; [|done].
    replace (Z.to_nat (dev_id e - i)) with (S (Z.to_nat (dev_id e - (i + 1)))) by lia.
    done.
Qed.

Lemma entries_from_complete (input_only : bool) (i : Z)
    (devices : list device_info) (j : nat) (dev : device_info) :
  devices !! j = Some dev ->
  input_only = false \/ max_input_channels dev <> 0 ->
  entry_of (i + Z.of_nat j) dev ∈ entries_from input_only i devices.
Proof.
  revert i j. induction devices as [|d rest IH]; intros i j Hlook Hkeep; [done|].
  simpl. apply elem_of_app. destruct j as [|j]; simpl in Hlook.
  - injection Hlook as ->. left. replace (i + Z.of_nat 0) with i by lia.
    destruct Hkeep as [->|Hne]; simpl; [set_solver|].
    destruct (Z.eqb_spec (max_input_channels dev) 0); [done|].
    rewrite andb_false_r. set_solver.
  - right. replace (i + Z.of_nat (S j)) with ((i + 1) + Z.of_nat j) by lia.
    by apply IH.
Qed.

Lemma entries_from_ids_from (input_only : bool) (i : Z) (devices : list device_info) :
  Forall (fun e => i <= dev_id e) (entries_from input_only i devices).
Proof.
  revert i. induction devices as [|dev rest IH]; intros i; simpl; [done|].
  apply Forall_app. split.
  - destruct (input_only && _); [done|]. apply Forall_singleton. simpl. lia.
  - eapply Forall_impl; [apply IH|]. simpl. intros e He. lia.
Qed.

Lemma entries_from_sorted (input_only : bool) (i : Z) (devices : list device_info) :
  StronglySorted Z.lt (map dev_id (entries_from input_only i devices)).
Proof.
  revert i. induction devices as [|dev rest IH]; intros i; simpl; [constructor|].
  destruct (input_only && _); simpl; [apply IH|].
  constructor; [apply IH|].
  apply Forall_fmap. eapply Forall_impl; [apply (entries_from_ids_from _ (i + 1))|].
  simpl. intros e He. lia.
Qed.

Lemma entries_from_defaults (input_only : bool) (i : Z) (devices : list device_info) :
  (length (filter (fun e => dev_is_default e = true)
             (entries_from input_only i devices)) <= 1)%nat /\
  (is_default_id i = false ->
   (forall k, default_device = inl k -> k < i) ->
   filter (fun e => dev_is_default e = true) (entries_from input_only i devices) = []).
Proof.
  revert i. induction devices as [|dev rest IH]; intros i; simpl.
  { split; [simpl; lia|done]. }
  destruct (IH (i + 1)) as [IH1 IH2]. rewrite filter_app.
  assert (Hafter : is_default_id i = true ->
            filter (fun e => dev_is_default e = true)
              (entries_from input_only (i + 1) rest) = []).
  { unfold is_default_id at 1.
    destruct default_device as [k|] eqn:Hd; [|intros; discriminate].
    intros Hik. apply Z.eqb_eq in Hik. apply IH2.
    - unfold is_default_id. rewrite Hd.
      destruct (Z.eqb_spec (i + 1) k); [lia|done].
    - intros k' [= <-]. lia. }
  split.
  - rewrite length_app. destruct (input_only && _); simpl; [lia|].
    rewrite filter_cons. simpl. case_decide as Hdef; simpl; [|lia].
    rewrite Hafter by done. simpl. lia.
  - intros Hno Hlt.
    assert (Hrest : filter (fun e => dev_is_default e = true)
                      (entries_from input_only (i + 1) rest) = []).
    { apply IH2.
      - unfold is_default_id. destruct default_device as [k|] eqn:Hd; [|done].
        destruct (Z.eqb_spec (i + 1) k) as [He|]; [|done].
        specialize (Hlt k eq_refl). lia.
      - intros k Hk. specialize (Hlt k Hk). lia. }
    rewrite Hrest, app_nil_r.
    destruct (input_only && _); [done|].
    rewrite filter_cons. simpl. case_decide as Hdef; [congruence|done].
Qed.

Lemma length_entries_from (input_only : bool) (i : Z) (devices : list device_info) :
  length (entries_from input_only i devices) =
  length (filter (fun dev => input_only = false \/ max_input_channels dev <> 0) devices).
Proof.
  revert i. induction devices as [|dev rest IH]; intros i; [done|].
  cbn [entries_from]. rewrite length_app, IH, filter_cons.
  destruct (decide (input_only = false \/ max_input_channels dev <> 0)) as [Hk|Hk].
  - assert (Hc : input_only && Z.eqb (max_input_channels dev) 0 = false).
    { destruct Hk as [->|Hne]; [done|].
      apply Z.eqb_neq in Hne. rewrite Hne. apply andb_false_r. }
    by rewrite Hc.
  - assert (Hc : input_only && Z.eqb (max_input_channels dev) 0 = true).
    { destruct input_only; [|exfalso; apply Hk; by left].
      destruct (Z.eqb_spec (max_input_channels dev) 0); [done|].
      exfalso. apply Hk. by right. }
    by rewrite Hc.
Qed.

Lemma StronglySorted_lt_NoDup (l : list Z) : StronglySorted Z.lt l -> NoDup l.
Proof.
  induction 1 as [|x l _ IH Hx]; constructor; [|done].
  intros Hin. rewrite Forall_forall in Hx. specialize (Hx x Hin). lia.
Qed.

(** X17. Every dict of the list describes the device whose index is its
    ["id"]: name, channel count, sample rate and default flag are those of
    that device; with [input_only] no listed device has zero input
    channels. *)
Theorem list_audio_devices_entries (input_only : bool) :
  Forall (fun e =>
            0 <= dev_id e /\
            exists dev, all_devices !! Z.to_nat (dev_id e) = Some dev /\
                        dev_name e = name dev /\
                        dev_channels e = max_input_channels dev /\
                        dev_sample_rate e = default_samplerate dev /\
                        dev_is_default e = is_default_id (dev_id e) /\
                        (input_only = true -> max_input_channels dev <> 0))
    (list_audio_devices input_only).
Proof.
  rewrite list_audio_devices_eq.
  eapply Forall_impl; [apply (entries_from_sound input_only 0); lia|].
  intros e (Hle & dev & Hlook & He & Hch). split; [done|]. exists dev.
  rewrite Z.sub_0_r in Hlook. rewrite He in Hch |- *. simpl in *. done.
Qed.

(** X18. No device is left out: the device at index [j] is listed, under
    the id [j], whenever [input_only] is off or the device has input
    channels. *)
Theorem list_audio_devices_complete (input_only : bool) (j : nat)
    (dev : device_info) :
  all_devices !! j = Some dev ->
  input_only = false \/ max_input_channels dev <> 0 ->
  entry_of (Z.of_nat j) dev ∈ list_audio_devices input_only.
Proof.
  intros Hlook Hkeep. rewrite list_audio_devices_eq.
  by apply (entries_from_complete input_only 0 all_devices j dev).
Qed.

(** X19. The ids of the list increase strictly, so no device is listed
    twice, and at most one dict is flagged as the default device. *)
Theorem list_audio_devices_ids_increase (input_only : bool) :
  StronglySorted Z.lt (map dev_id (list_audio_devices input_only)) /\
  NoDup (map dev_id (list_audio_devices input_only)) /\
  (length (filter (fun e => dev_is_default e = true)
             (list_audio_devices input_only)) <= 1)%nat.
Proof.
  rewrite list_audio_devices_eq.
  pose proof (entries_from_sorted input_only 0 all_devices) as Hs.
  split; [done|]. split; [by apply StronglySorted_lt_NoDup|].
  apply entries_from_defaults.
Qed.

Lemma entries_from_input_only (i : Z) (devices : list device_info) :
  entries_from true i devices =
    filter (fun e => dev_channels e <> 0) (entries_from false i devices).
Proof.
  revert i. induction devices as [|dev rest IH]; intros i; [done|].
  cbn [entries_from andb]. rewrite IH.
  change ([entry_of i dev] ++ entries_from false (i + 1) rest)
    with (entry_of i dev :: entries_from false (i + 1) rest).
  rewrite filter_cons.
  destruct (decide (dev_channels (entry_of i dev) <> 0)) as [Hk|Hk]; simpl in Hk;
    destruct (Z.eqb_spec (max_input_channels dev) 0) as [He|Hne]; simpl; done.
Qed.

Lemma entries_from_all_ids (i : Z) (devices : list device_info) :
  map dev_id (entries_from false i devices) = seqZ i (Z.of_nat (length devices)).
Proof.
  revert i. induction devices as [|dev rest IH]; intros i; [done|].
  cbn [entries_from andb length]. simpl map. rewrite IH, (seqZ_cons i) by lia.
  f_equal. f_equal; lia.
Qed.

(** X20. The list with [input_only] is the full list without the dicts of
    zero channels, and the full list has one dict for each device, with
    the ids 0, 1, 2, ... *)
Theorem list_audio_devices_input_only_filters :
  list_audio_devices true =
    filter (fun e => dev_channels e <> 0) (list_audio_devices false) /\
  map dev_id (list_audio_devices false) =
    seqZ 0 (Z.of_nat (length all_devices)).
Proof.
  rewrite !list_audio_devices_eq. split.
  - apply entries_from_input_only.
  - apply entries_from_all_ids.
Qed.

(** X21. [print_audio_devices] prints the title, a rule of 60 dashes, two
    lines for each device that [list_audio_devices] keeps, and the rule
    again; with no device to show, those three lines only. *)
Theorem print_audio_devices_lines (input_only : bool) :
  length (print_audio_devices input_only) =
    (3 + 2 * length (filter (fun dev => input_only = false \/
                                        (max_input_channels dev <> 0)%Z) all_devices))%nat /\
  last (print_audio_devices input_only) = Some (str_mul "-" 60) /\
  String.length (str_mul "-" 60) = 60%nat /\
  (list_audio_devices input_only = [] ->
   print_audio_devices input_only =
     ["Available audio devices:"; str_mul "-" 60; str_mul "-" 60]).
Proof.
  unfold print_audio_devices. split_and!.
  - rewrite <- (length_entries_from input_only 0), <- list_audio_devices_eq.
    simpl. rewrite length_app. simpl.
    induction (list_audio_devices input_only) as [|e l IH]; simpl; lia.
  - change (["Available audio devices:"; str_mul "-" 60]
            ++ concat (map device_lines (list_audio_devices input_only))
            ++ [str_mul "-" 60])
      with ("Available audio devices:" :: str_mul "-" 60 ::
            concat (map device_lines (list_audio_devices input_only))
            ++ [str_mul "-" 60]).
    rewrite !last_cons, last_snoc. done.
  - reflexivity.
  - by intros ->.
Qed.

End Devices.

(** ** Listed devices and the microphone *)

(** X22. The ids of the list are ids for [Microphone]: when
    [sd.query_devices(i)] is the [i]-th device of [sd.query_devices()], the
    device query of [Microphone(device=id)] does not fail for the id of a
    listed dict, and every microphone so constructed has the sample rate the
    dict shows (as an integer) and, for a positive rate below [2^44], the
    chunk size [int(512 * rate / 16000)]; a [Microphone()] constructed
    without a device has the rate and chunk size of the dict flagged as
    default. *)
Theorem microphone_of_listed_device (Model VADIterator_state : Type)
    (load_silero_vad : Model)
    (VADIterator : Model -> Q -> Z -> Z -> VADIterator_state)
    (query_devices : Z + string -> option Q)
    (all_devices : list device_info) (default_device : Z + string)
    (input_only : bool) (e : device_entry) (thr : Q) (ms pad : Z) :
  (forall j dev, all_devices !! j = Some dev ->
     query_devices (inl (Z.of_nat j)) = Some (default_samplerate dev)) ->
  e ∈ list_audio_devices all_devices default_device input_only ->
  0 < py_int (dev_sample_rate e) < 2 ^ 44 ->
  query_devices (inl (dev_id e)) = Some (dev_sample_rate e) /\
  (forall self,
     __init__ Model VADIterator_state load_silero_vad VADIterator query_devices
       default_device (Some (inl (dev_id e))) thr ms pad = Some self ->
     device self = Some (inl (dev_id e)) /\
     device_sample_rate self = py_int (dev_sample_rate e) /\
     chunk_size self = 512 * py_int (dev_sample_rate e) / 16000) /\
  (dev_is_default e = true ->
   forall self0,
     __init__ Model VADIterator_state load_silero_vad VADIterator query_devices
       default_device None thr ms pad = Some self0 ->
     device_sample_rate self0 = py_int (dev_sample_rate e) /\
     chunk_size self0 = 512 * py_int (dev_sample_rate e) / 16000).
Proof.
  intros Hquery He Hrange.
  pose proof (entries_from_sound default_device input_only 0
                all_devices ltac:(lia)) as Hall.
  rewrite <- list_audio_devices_eq in Hall.
  rewrite Forall_forall in Hall.
  destruct (Hall e He) as (Hid & dev & Hlook & Hentry & _).
  rewrite Z.sub_0_r in Hlook.
  pose proof (Hquery _ _ Hlook) as Hq. rewrite Z2Nat.id in Hq by done.
  assert (Hrate : dev_sample_rate e = default_samplerate dev) by (by rewrite Hentry).
  rewrite <- Hrate in Hq.
  assert (Hchunk : chunk_size_of (py_int (dev_sample_rate e)) =
                   512 * py_int (dev_sample_rate e) / 16000).
  { unfold chunk_size_of, VAD_CHUNK_SAMPLES, VAD_SAMPLE_RATE.
    apply Z.quot_div_nonneg; lia. }
  split; [exact Hq|]. split.
  - intros self. unfold __init__. rewrite Hq. simpl. intros [= <-]. simpl.
    by rewrite Hchunk.
  - intros Hdef. rewrite Hentry in Hdef. simpl in Hdef.
    unfold is_default_id in Hdef.
    destruct default_device as [k|]; [|done].
    apply Z.eqb_eq in Hdef. subst k.
    intros self0. unfold __init__. rewrite Hq. simpl. intros [= <-]. simpl.
    by rewrite Hchunk.
Qed.

(** *** The further properties at concrete inputs *)

(** The four devices of [toy_query_devices]; the third has no input. *)
Definition toy_devices : list device_info :=
  [ mk_device_info "Built-in Microphone" 2 (inject_Z 44100);
    mk_device_info "USB Audio" 1 (inject_Z 22050);
    mk_device_info "HDMI Output" 0 (inject_Z 16000);
    mk_device_info "Line In" 2 (inject_Z 48000) ].

Lemma toy_query_devices_by_index (j : nat) (dev : device_info) :
  toy_devices !! j = Some dev ->
  toy_query_devices (inl (Z.of_nat j)) = Some (default_samplerate dev).
Proof.
  unfold toy_devices.
  destruct j as [|[|[|[|j]]]]; simpl; intros [= <-]; reflexivity.
Qed.

(** A recording on the 44100 Hz device in which nobody speaks: one block
    before the first evaluation of the loop condition, two before the
    second, which finds the timeout of 30 s passed, one more before the
    stream closes. *)
Definition silent_schedule : schedule :=
  mk_schedule 100
    [([silent_block 4], 100 + (1 # 100));
     ([silent_block 4; silent_block 4], 131)]%Q
    [silent_block 4].

(** A recording on the 16000 Hz device: silence, speech, silence, and a
    block that arrives late. *)
Definition speech_schedule : schedule :=
  mk_schedule 100
    [([silent_block 2; loud_block 2], 100 + (1 # 100));
     ([silent_block 2; silent_block 2], 100 + (2 # 100))]%Q
    [silent_block 2].

(** The sessions these two schedules end in. *)
Definition silent_capture : capture unit bool :=
  mk_capture mic_44100 (replicate 4 (column0 (silent_block 4))) false false true.

Definition speech_capture : capture unit bool :=
  mk_capture mic_16000
    [column0 (silent_block 2); column0 (loud_block 2); column0 (silent_block 2)]
    true true true.

Example silent_schedule_close :
  capture_at_close nearest_resample cast_elem unit bool toy_vad_new toy_vad_call
    mic_44100 30 silent_schedule = Some silent_capture.
Proof. reflexivity. Qed.

Example speech_schedule_close :
  capture_at_loop_exit nearest_resample cast_elem unit bool toy_vad_new toy_vad_call
    mic_16000 30 speech_schedule = Some speech_capture /\
  capture_at_close nearest_resample cast_elem unit bool toy_vad_new toy_vad_call
    mic_16000 30 speech_schedule = Some speech_capture.
Proof. split; reflexivity. Qed.

Example toy_listing :
  map dev_id (list_audio_devices toy_devices (inl 0) true) = [0; 1; 3] /\
  map dev_is_default (list_audio_devices toy_devices (inl 0) true) = [true; false; false] /\
  print_audio_devices toy_devices (inl 0) (fun q => pretty (Qnum q)) true =
    [ "Available audio devices:";
      "------------------------------------------------------------";
      "  [0] Built-in Microphone (default)";
      "      Channels: 2, Sample Rate: 44100";
      "  [1] USB Audio";
      "      Channels: 1, Sample Rate: 22050";
      "  [3] Line In";
      "      Channels: 2, Sample Rate: 48000";
      "------------------------------------------------------------" ].
Proof. split_and!; reflexivity. Qed.

Lemma record_until_silence_keeps_settings_witness :
  device_sample_rate mic_44100 = 44100 /\ chunk_size mic_44100 = 1411 /\
  record_until_silence nearest_resample cast_elem le_bytes unit bool
    toy_vad_new toy_vad_call mic_44100 30 silent_schedule
  = Returned mic_44100 (replicate 10 Byte.x00).
Proof.
  assert (Hout : record_until_silence nearest_resample cast_elem le_bytes unit bool
                   toy_vad_new toy_vad_call mic_44100 30 silent_schedule
                 = Returned mic_44100 (replicate 10 Byte.x00)) by reflexivity.
  destruct (record_until_silence_keeps_settings nearest_resample cast_elem le_bytes
              unit bool toy_vad_new toy_vad_call mic_44100 mic_44100 30
              silent_schedule) as (_ & _ & _ & _ & Hrate & Hchunk & _).
  - left. exists (replicate 10 Byte.x00). exact Hout.
  - split; [exact Hrate|]. split; [exact Hchunk|exact Hout].
Defined.

Lemma record_until_silence_stops_at_timeout_witness :
  record_until_silence nearest_resample cast_elem le_bytes unit bool
    toy_vad_new toy_vad_call mic_44100 30 silent_schedule <> Running.
Proof.
  apply (record_until_silence_stops_at_timeout nearest_resample cast_elem le_bytes
           unit bool toy_vad_new toy_vad_call mic_44100 30 silent_schedule).
  apply Exists_cons_tl, Exists_cons_hd. simpl. unfold Qle. simpl. lia.
Defined.

Lemma early_exit_means_speech_ended_witness :
  speech_ended speech_capture = true.
Proof.
  apply (early_exit_means_speech_ended nearest_resample cast_elem unit bool
           toy_vad_new toy_vad_call mic_16000 30 speech_schedule speech_capture).
  - repeat constructor.
  - reflexivity.
Defined.

Lemma record_until_silence_drains_after_end_witness :
  record_until_silence nearest_resample cast_elem le_bytes unit bool
    toy_vad_new toy_vad_call mic_16000 30 speech_schedule =
  record_until_silence nearest_resample cast_elem le_bytes unit bool
    toy_vad_new toy_vad_call mic_16000 30
    (mk_schedule (start_time speech_schedule) (polls speech_schedule) []).
Proof.
  apply (record_until_silence_drains_after_end nearest_resample cast_elem le_bytes
           unit bool toy_vad_new toy_vad_call mic_16000 30 speech_schedule
           speech_capture); reflexivity.
Defined.

Lemma record_until_silence_output_length_witness :
  Z.of_nat (length (replicate 10 Byte.x00)) =
    2 * (total_frames (audio_chunks silent_capture) * 16000 / 44100).
Proof.
  apply (record_until_silence_output_length nearest_resample cast_elem le_bytes
           unit bool toy_vad_new toy_vad_call nearest_resample_length
           le_bytes_length mic_44100 mic_44100 30 silent_schedule silent_capture
           (replicate 10 Byte.x00)).
  - reflexivity.
  - repeat constructor.
  - repeat constructor.
  - reflexivity.
  - reflexivity.
Defined.

Lemma record_until_silence_16k_raw_witness :
  record_until_silence nearest_resample cast_elem le_bytes unit bool
    toy_vad_new toy_vad_call mic_16000 30 speech_schedule =
  Returned mic_16000
    (concat (map (tobytes le_bytes) (audio_chunks speech_capture))).
Proof.
  apply (record_until_silence_16k_raw nearest_resample cast_elem le_bytes
           unit bool toy_vad_new toy_vad_call mic_16000 30 speech_schedule
           speech_capture).
  - reflexivity.
  - repeat constructor.
  - repeat constructor.
  - reflexivity.
Defined.

Lemma vad_frame_padding_witness :
  exists resampled,
    _resample nearest_resample cast_elem (column0 (silent_block 1411)) 44100 16000
      = Some resampled /\
    511 <= len resampled <= 512 /\
    (len resampled = 512 <-> 44100 mod 125 = 0).
Proof.
  destruct (nearest_resample_returns (column0 (silent_block 1411)) 511)
    as [y Hy]; [done|lia|].
  exists (astype cast_elem int16 (mk_ndarray float64 y)).
  assert (Hres : _resample nearest_resample cast_elem (column0 (silent_block 1411))
                   44100 16000 = Some (astype cast_elem int16 (mk_ndarray float64 y))).
  { unfold _resample, int_truediv, mbind, option_bind.
    change (Z.quot (len (column0 (silent_block 1411)) * 16000) 44100) with 511.
    simpl Z.eqb. cbv iota. by rewrite Hy. }
  split; [exact Hres|].
  apply (vad_frame_padding nearest_resample cast_elem unit bool
           nearest_resample_length mic_44100 (column0 (silent_block 1411))).
  - simpl. lia.
  - reflexivity.
  - reflexivity.
  - exact Hres.
Defined.

Lemma record_seconds_whole_seconds_witness :
  exists out,
    record_seconds nearest_resample cast_elem le_bytes unit bool silent_rec
      mic_22050 (inject_Z 2) = Some out /\
    Z.of_nat (length out) = 32000 * 2.
Proof.
  apply (record_seconds_whole_seconds nearest_resample cast_elem le_bytes
           unit bool silent_rec nearest_resample_length
           nearest_resample_returns le_bytes_length silent_rec_frames mic_22050 2).
  - simpl. lia.
  - lia.
  - apply silent_rec_returns. simpl. lia.
Defined.

Lemma record_seconds_16k_raw_witness :
  record_seconds nearest_resample cast_elem le_bytes unit bool silent_rec
    mic_16000 (1 # 64) = Some (replicate 500 Byte.x00).
Proof.
  destruct (record_seconds_16k_raw nearest_resample cast_elem le_bytes unit bool
              silent_rec le_bytes_length silent_rec_frames mic_16000 (1 # 64)
              250 (silent_block 250)) as (Hout & _ & _).
  - reflexivity.
  - reflexivity.
  - reflexivity.
  - reflexivity.
  - rewrite Hout. reflexivity.
Defined.

Lemma normalize_int16_range_witness :
  Forall (fun y => (-1 <= y)%Q /\ (y < 1)%Q)
    (arr_data (normalize cast_elem five_samples)).
Proof.
  apply (normalize_int16_range cast_elem five_samples).
  - reflexivity.
  - intros z _. apply Qeq_refl.
  - unfold five_samples. simpl.
    repeat (apply Forall_cons; split; [eexists; split; [reflexivity|lia]|]).
    apply Forall_nil_2.
Defined.

Lemma list_audio_devices_complete_witness :
  entry_of (inl 0) (Z.of_nat 1) (mk_device_info "USB Audio" 1 (inject_Z 22050))
    ∈ list_audio_devices toy_devices (inl 0) true.
Proof.
  apply (list_audio_devices_complete toy_devices (inl 0) true 1).
  - reflexivity.
  - right. simpl. lia.
Defined.

Lemma microphone_of_listed_device_witness :
  toy_query_devices (inl 1) = Some (inject_Z 22050) /\
  device_sample_rate mic_22050 = 22050 /\ chunk_size mic_22050 = 705.
Proof.
  destruct (microphone_of_listed_device unit bool tt toy_vad_new
              toy_query_devices toy_devices (inl 0) true
              (entry_of (inl 0) 1 (mk_device_info "USB Audio" 1 (inject_Z 22050)))
              (1 # 2) 500 100 toy_query_devices_by_index)
    as (Hquery & Hinit & _).
  - rewrite list_audio_devices_eq.
    apply (entries_from_complete (inl 0) true 0 toy_devices 1);
      [reflexivity|right; simpl; lia].
  - split; reflexivity.
  - split; [exact Hquery|].
    destruct (Hinit mic_22050) as (_ & Hrate & Hchunk); [reflexivity|].
    split; [exact Hrate|exact Hchunk].
Defined.

Lemma record_until_silence_keeps_every_chunk_witness :
  exists n, (n <= length (polls silent_schedule))%nat /\
    audio_chunks silent_capture =
      map column0 (concat (map fst (take n (polls silent_schedule)))
                   ++ before_close silent_schedule).
Proof.
  apply (record_until_silence_keeps_every_chunk nearest_resample cast_elem
           unit bool toy_vad_new toy_vad_call mic_44100 30 silent_schedule
           silent_capture); reflexivity.
Defined.
